(** * Hopeful News front end: the component logic, embedded and verified

  The development follows the Vue single-file components of the
  repository:

  - [PullToRefresh]: the touch handlers of [ArticleFeed.vue]
    ([onTouchStart], [onTouchMove], [onTouchEnd]) as transitions of a
    small event-driven system;
  - [LoadMore]: the "Load more" block of the [ArticleFeed.vue] template
    and the [loadMore] operation of the feed controller;
  - [Auxiliary]: [fetchFilters] ([App.vue]), [fetchStats]
    ([AppHeader.vue]) and the mount hooks;
  - [FilterBar]: the controls of [FilterBar.vue] and what they emit;
  - [HopeLevel]: the tier table and the [level] computed property;
  - [ArticleCard]: [cleanSummary], [handleShare] and [copyToClipboard].

  JavaScript numbers that carry coordinates, offsets and scores are
  modelled as rationals ([Q]), compared with [Qle_bool] and [Qeq_bool]: the
  handlers only subtract two coordinates, halve the difference, compare and
  take a minimum, and the properties below depend on the order of these
  numbers only.  Strings are [string]s; [null] and [undefined] are [None]. *)

From Stdlib Require Import QArith Qminmax Lqa Lia Arith List Bool String Ascii.
Import ListNotations.

Local Open Scope Q_scope.

(** ** JavaScript comparison operators on numbers *)

Module Js.

(** [x > y] *)
Definition gt (x y : Q) : bool := negb (Qle_bool x y).

(** [x >= y] *)
Definition ge (x y : Q) : bool := Qle_bool y x.

(** [x === y] on numbers *)
Definition strict_eq (x y : Q) : bool := Qeq_bool x y.

(** [Math.min(x, y)] *)
Definition Math_min (x y : Q) : Q := Qmin x y.

End Js.

(** ** Asynchronous handler bodies

    A handler body is a computation over the refs of its component that may
    call out (an effect), await a promise and throw.  A promise is given by
    the way it settles; [await] on a rejected promise throws its reason, and
    [try_catch] keeps what the protected block did before it threw, as a
    JavaScript [try] does. *)

Module Async.

(** An exception value, by its [name] property. *)
Record error : Type := mkError { err_name : string }.

Inductive settled (A : Type) : Type :=
| Fulfilled (a : A)
| Rejected (reason : error).
Arguments Fulfilled {A} a.
Arguments Rejected {A} reason.

Inductive outcome (A : Type) : Type :=
| Return (a : A)
| Throw (reason : error).
Arguments Return {A} a.
Arguments Throw {A} reason.

Section Exec.
Context {St Eff : Type}.

Definition Exec (A : Type) : Type := St -> outcome A * St * list Eff.

Definition ret {A} (a : A) : Exec A := fun st => (Return a, st, []).

Definition bind {A B} (m : Exec A) (k : A -> Exec B) : Exec B :=
  fun st =>
    match m st with
    | (Return a, st1, out1) =>
        let '(r, st2, out2) := k a st1 in (r, st2, out1 ++ out2)
    | (Throw e, st1, out1) => (Throw e, st1, out1)
    end.

Definition throw {A} (e : error) : Exec A := fun st => (Throw e, st, []).

Definition try_catch {A} (body : Exec A) (handler : error -> Exec A) : Exec A :=
  fun st =>
    match body st with
    | (Return a, st1, out1) => (Return a, st1, out1)
    | (Throw e, st1, out1) =>
        let '(r, st2, out2) := handler e st1 in (r, st2, out1 ++ out2)
    end.

Definition emit (e : Eff) : Exec unit := fun st => (Return tt, st, [e]).

Definition get : Exec St := fun st => (Return st, st, []).

Definition modify (f : St -> St) : Exec unit := fun st => (Return tt, f st, []).

Definition await {A} (p : settled A) : Exec A :=
  match p with
  | Fulfilled a => ret a
  | Rejected e => throw e
  end.

End Exec.

Arguments Exec : clear implicits.

(** [Promise.all([p, q])]: fulfilled with both values when both are,
    rejected as soon as one is. *)
Definition Promise_all2 {A B} (p : settled A) (q : settled B) : settled (A * B) :=
  match p, q with
  | Fulfilled a, Fulfilled b => Fulfilled (a, b)
  | Rejected e, _ => Rejected e
  | Fulfilled _, Rejected e => Rejected e
  end.

Definition is_rejected {A} (p : settled A) : bool :=
  match p with Rejected _ => true | Fulfilled _ => false end.

End Async.

Declare Scope exec_scope.
Delimit Scope exec_scope with exec.
Notation "x <- m ;; k" := (Async.bind m (fun x => k))
  (at level 61, m at next level, right associativity) : exec_scope.
Notation "m ;;; k" := (Async.bind m (fun _ => k))
  (at level 61, right associativity) : exec_scope.

(** ** Pull-to-refresh ([ArticleFeed.vue], script part) *)

Module PullToRefresh.

Definition PULL_THRESHOLD : Q := 80.
Definition MAX_PULL : Q := 120.

(** The four refs of the handler. *)
Record GestureState : Type := mkGesture {
  pullDistance : Q;
  isPulling : bool;
  isRefreshing : bool;
  startY : Q
}.

(** What a handler does to the outside world. *)
Inductive effect : Type :=
| FetchArticles (reset : bool)   (* fetchArticles(reset) *)
| ScrollToTop                    (* window.scrollTo({ top: 0, ... }) *)
| PreventDefault.                (* e.preventDefault() *)

Definition initial : GestureState :=
  {| pullDistance := 0; isPulling := false; isRefreshing := false; startY := 0 |}.

(** [onTouchStart(e)], with [scrollY] the value of [window.scrollY] and
    [clientY] that of [e.touches[0].clientY]. *)
Definition onTouchStart (scrollY clientY : Q) (g : GestureState) : GestureState :=
  if isRefreshing g || Js.gt scrollY 0 then g
  else {| pullDistance := pullDistance g;
          isPulling := true;
          isRefreshing := isRefreshing g;
          startY := clientY |}.

(** [onTouchMove(e)]. *)
Definition onTouchMove (scrollY clientY : Q) (g : GestureState)
  : GestureState * list effect :=
  if negb (isPulling g) || isRefreshing g then (g, [])
  else
    let currentY := clientY in
    let diff := currentY - startY g in
    if Js.gt diff 0 && Js.strict_eq scrollY 0 then
      ({| pullDistance := Js.Math_min (diff * (1 # 2)) MAX_PULL;
          isPulling := isPulling g;
          isRefreshing := isRefreshing g;
          startY := startY g |}, [PreventDefault])
    else
      ({| pullDistance := 0;
          isPulling := isPulling g;
          isRefreshing := isRefreshing g;
          startY := startY g |}, []).

(** [onTouchEnd()] is an [async] function.  Its body runs synchronously up
    to [await fetchArticles(true)] (the call itself included) and is then
    parked until the promise settles; when no [await] is reached it runs to
    its end.  The third component tells whether the call is parked. *)
Definition onTouchEnd (g : GestureState) : GestureState * list effect * bool :=
  if negb (isPulling g) then (g, [], false)
  else
    let g1 := {| pullDistance := pullDistance g;
                 isPulling := false;
                 isRefreshing := isRefreshing g;
                 startY := startY g |} in
    if Js.ge (pullDistance g1) PULL_THRESHOLD then
      ({| pullDistance := 60;
          isPulling := isPulling g1;
          isRefreshing := true;
          startY := startY g1 |}, [FetchArticles true], true)
    else
      ({| pullDistance := 0;
          isPulling := isPulling g1;
          isRefreshing := isRefreshing g1;
          startY := startY g1 |}, [], false).

(** The rest of [onTouchEnd] after the [await]: scroll to top, clear
    [isRefreshing], then the final [pullDistance.value = 0].
    [fetchArticles] lives in the feed controller, which reports a failed
    request through its [error] field; its promise is fulfilled either way,
    so the parked call always resumes here. *)
Definition onTouchEnd_resume (g : GestureState) : GestureState * list effect :=
  ({| pullDistance := 0;
      isPulling := isPulling g;
      isRefreshing := false;
      startY := startY g |}, [ScrollToTop]).

(** [onTouchEnd] run until the handler has finished, the refresh path
    included. *)
Definition onTouchEnd_finished (g : GestureState) : GestureState :=
  let '(g1, _, parked) := onTouchEnd g in
  if parked then fst (onTouchEnd_resume g1) else g1.

(** *** The event loop

    The document listeners deliver touch events one at a time; the
    settlement of a refresh fetch is one more event, which resumes a parked
    [onTouchEnd] call.  [parked] counts the calls waiting at the [await],
    that is, the refresh-triggered fetches in flight. *)

Record System : Type := mkSystem {
  gesture : GestureState;
  parked : nat
}.

Inductive event : Type :=
| TouchStart (scrollY clientY : Q)
| TouchMove (scrollY clientY : Q)
| TouchEnd
| FetchSettled.

Definition boot : System := {| gesture := initial; parked := 0 |}.

Definition step (e : event) (s : System) : System * list effect :=
  match e with
  | TouchStart scrollY clientY =>
      ({| gesture := onTouchStart scrollY clientY (gesture s);
          parked := parked s |}, [])
  | TouchMove scrollY clientY =>
      let '(g, out) := onTouchMove scrollY clientY (gesture s) in
      ({| gesture := g; parked := parked s |}, out)
  | TouchEnd =>
      let '(g, out, waits) := onTouchEnd (gesture s) in
      ({| gesture := g;
          parked := if waits then S (parked s) else parked s |}, out)
  | FetchSettled =>
      match parked s with
      | O => (s, [])
      | S n =>
          let '(g, out) := onTouchEnd_resume (gesture s) in
          ({| gesture := g; parked := n |}, out)
      end
  end.

(** Running a sequence of events, collecting the effects in order. *)
Fixpoint run (evs : list event) (s : System) : System * list effect :=
  match evs with
  | [] => (s, [])
  | e :: evs' =>
      let '(s1, out1) := step e s in
      let '(s2, out2) := run evs' s1 in
      (s2, out1 ++ out2)
  end.

Inductive reachable : System -> Prop :=
| reach_boot : reachable boot
| reach_step : forall e s, reachable s -> reachable (fst (step e s)).

(** The [reset] flags of the [fetchArticles] calls among some effects. *)
Fixpoint fetch_calls (out : list effect) : list bool :=
  match out with
  | [] => []
  | FetchArticles reset :: out' => reset :: fetch_calls out'
  | _ :: out' => fetch_calls out'
  end.

(** *** The invariant of the event loop *)

Record inv (s : System) : Prop := mkInv {
  inv_range : 0 <= pullDistance (gesture s) <= MAX_PULL;
  inv_refreshing :
    isRefreshing (gesture s) = true ->
    isPulling (gesture s) = false /\ pullDistance (gesture s) = 60
    /\ parked s = 1%nat;
  inv_quiet :
    isRefreshing (gesture s) = false ->
    parked s = 0%nat /\ (isPulling (gesture s) = false -> pullDistance (gesture s) = 0)
}.

End PullToRefresh.

(** ** Data exchanged with the backend *)

Module Data.

Record Article : Type := mkArticle {
  id : string;
  headline : string;
  summary : option string;          (* may be missing or null *)
  image_url : option string;
  source_url : string;
  source_name : string;
  category : option string;
  hopefulness_score : option Q;     (* a number or null *)
  published_at : string
}.

(** An entry of the category and region lists: [{ name, count }]. *)
Record Facet : Type := mkFacet { name : string; count : Z }.

(** The reply of [getStats]: [{ articles: { fetched_today } }], where
    [articles] and [fetched_today] may be missing. *)
Record StatsArticles : Type := mkStatsArticles { fetched_today : option Z }.
Record Stats : Type := mkStats { stats_articles : option StatsArticles }.

End Data.

(** ** The feed footer ([ArticleFeed.vue], template) and [loadMore] *)

Module LoadMore.

(** Modelled from the spec: the state of the feed controller
    ([useArticles.js] is not among the sources), FeedState in section 3. *)
Record FeedState : Type := mkFeed {
  articles : list Data.Article;
  page : Z;
  hasMore : bool;
  total : Z;
  loading : bool;
  error : option string
}.

Inductive call : Type :=
| Fetch (reset : bool).      (* fetchArticles(reset) *)

(** Modelled from the spec: [loadMore] of the feed controller
    ([useArticles.js] is not among the sources).  Section 4.1: preconditions
    [hasMore === true] and [loading === false]; increments [page] and calls
    fetch in append mode; a no-op when the preconditions are violated. *)
Definition loadMore (f : FeedState) : FeedState * list call :=
  if hasMore f && negb (loading f) then
    ({| articles := articles f;
        page := (page f + 1)%Z;
        hasMore := hasMore f;
        total := total f;
        loading := loading f;
        error := error f |}, [Fetch false])
  else (f, []).

(** What the block under "Load more" in the template shows:
    [<div v-if="articles.length > 0">] around a [v-if] / [v-else-if] /
    [v-else] chain. *)
Inductive footer : Type :=
| NoFooter
| LoadMoreButton      (* <button v-if="hasMore && !loading" @click="loadMore"> *)
| Spinner             (* <LoadingSpinner v-else-if="loading" /> *)
| EndOfArticles.      (* <p v-else>End of articles</p> *)

Definition render_footer (f : FeedState) : footer :=
  if (0 <? List.length (articles f))%nat then
    if hasMore f && negb (loading f) then LoadMoreButton
    else if loading f then Spinner
    else EndOfArticles
  else NoFooter.

(** A click in the footer: only the button has a handler, and it is there
    only when it is rendered. *)
Definition click_footer (f : FeedState) : option (FeedState * list call) :=
  match render_footer f with
  | LoadMoreButton => Some (loadMore f)
  | _ => None
  end.

End LoadMore.

(** ** Auxiliary data: [fetchFilters] ([App.vue]), [fetchStats]
    ([AppHeader.vue]) and the mount hooks *)

Module Auxiliary.
Import Async.
Local Open Scope exec_scope.

(** The refs of [App.vue] and [AppHeader.vue] that the hooks write, and the
    length of the feed's article list, which [ArticleFeed.vue] reads. *)
Record Page : Type := mkPage {
  categories : list Data.Facet;
  regions : list Data.Facet;
  todayCount : option Z;
  feed_length : nat
}.

Inductive call : Type :=
| GetCategories
| GetRegions
| GetStats
| FetchArticles (reset : bool)
| AnalyticsInject
| UnhandledRejection (reason : error).

(** How the three auxiliary requests settle.  [getStats] may be fulfilled
    with [null] ([None]). *)
Record Backend : Type := mkBackend {
  categories_reply : settled (list Data.Facet);
  regions_reply : settled (list Data.Facet);
  stats_reply : settled (option Data.Stats)
}.

Definition fresh : Page :=
  {| categories := []; regions := []; todayCount := None; feed_length := 0 |}.

Definition set_categories (v : list Data.Facet) (p : Page) : Page :=
  {| categories := v; regions := regions p;
     todayCount := todayCount p; feed_length := feed_length p |}.

Definition set_regions (v : list Data.Facet) (p : Page) : Page :=
  {| categories := categories p; regions := v;
     todayCount := todayCount p; feed_length := feed_length p |}.

Definition set_todayCount (v : option Z) (p : Page) : Page :=
  {| categories := categories p; regions := regions p;
     todayCount := v; feed_length := feed_length p |}.

Definition TypeError : error := {| err_name := "TypeError" |}.

(** [fetchFilters] of [App.vue]. *)
Definition fetchFilters (b : Backend) : Exec Page call unit :=
  try_catch
    (emit GetCategories ;;;
     emit GetRegions ;;;
     both <- await (Promise_all2 (categories_reply b) (regions_reply b)) ;;
     let '(cats, regs) := both in
     modify (set_categories cats) ;;;
     modify (set_regions regs))
    (fun _ => ret tt).

(** [stats.articles?.fetched_today ?? null] *)
Definition fetched_today_or_null (stats : Data.Stats) : option Z :=
  match Data.stats_articles stats with
  | Some a => Data.fetched_today a
  | None => None
  end.

(** [fetchStats] of [AppHeader.vue]. *)
Definition fetchStats (b : Backend) : Exec Page call unit :=
  try_catch
    (emit GetStats ;;;
     stats <- await (stats_reply b) ;;
     match stats with
     | Some s => modify (set_todayCount (fetched_today_or_null s))
     | None => throw TypeError      (* property access on null *)
     end)
    (fun _ => ret tt).

(** An [async] function called without [await]: the caller goes on, and an
    exception that escapes the callee becomes an unhandled rejection. *)
Definition spawn (m : Exec Page call unit) : Exec Page call unit :=
  fun st =>
    match m st with
    | (Return _, st1, out) => (Return tt, st1, out)
    | (Throw e, st1, out) => (Return tt, st1, out ++ [UnhandledRejection e])
    end.

(** [onMounted] of [AppHeader.vue] (the dark-mode sync is left out). *)
Definition AppHeader_onMounted (b : Backend) : Exec Page call unit :=
  spawn (fetchStats b).

(** [onMounted] of [ArticleFeed.vue] (the listener registration is left
    out): the feed is fetched when the list is empty. *)
Definition ArticleFeed_onMounted : Exec Page call unit :=
  p <- get ;;
  if (feed_length p =? 0)%nat then emit (FetchArticles true) else ret tt.

(** [onMounted] of [App.vue]. *)
Definition App_onMounted (b : Backend) : Exec Page call unit :=
  spawn (fetchFilters b) ;;;
  emit AnalyticsInject.

(** Mounting the page: the hooks of the children run before the hook of
    [App.vue]; each request is run to its settlement where it is issued (the
    three handlers write disjoint refs, so their interleaving is immaterial). *)
Definition mount (b : Backend) : Exec Page call unit :=
  AppHeader_onMounted b ;;;
  ArticleFeed_onMounted ;;;
  App_onMounted b.

Definition is_feed_fetch (c : call) : bool :=
  match c with FetchArticles _ => true | _ => false end.

Definition is_unhandled (c : call) : bool :=
  match c with UnhandledRejection _ => true | _ => false end.

End Auxiliary.

(** ** The filter bar ([FilterBar.vue]) and [handleFilterChange] ([App.vue]) *)

Module FilterBar.

(** The values a control can emit: [null], a name or a score. *)
Inductive value : Type :=
| VNull
| VString (s : string)
| VNumber (q : Q).

(** [a === b] *)
Definition strict_equal (a b : value) : bool :=
  match a, b with
  | VNull, VNull => true
  | VString s, VString t => String.eqb s t
  | VNumber p, VNumber q => Js.strict_eq p q
  | _, _ => false
  end.

Inductive dimension : Type := category | region | minScore.

(** The payload of the ['filter-change'] event: [{ type, value }]. *)
Record FilterChange : Type := mkChange { type : dimension; payload : value }.

Record Props : Type := mkProps {
  categories : list Data.Facet;
  regions : list Data.Facet;
  activeCategory : option string;
  activeRegion : option string;
  activeMinScore : option Q
}.

(** The entries of [ratingLevels] (the colour classes are left out). *)
Record RatingLevel : Type := mkRating { min : Q; label : string }.

Definition ratingLevels : list RatingLevel :=
  [ {| min := 90; label := "Radiant" |};
    {| min := 80; label := "Inspiring" |};
    {| min := 70; label := "Uplifting" |};
    {| min := 60; label := "Hopeful" |} ].

Definition selectCategory (v : value) : FilterChange :=
  {| type := category; payload := v |}.

Definition selectRegion (v : value) : FilterChange :=
  {| type := region; payload := v |}.

Definition selectMinScore (v : value) : FilterChange :=
  {| type := minScore; payload := v |}.

(** [props.categories.length > 0 || props.regions.length > 0] *)
Definition hasFilters (p : Props) : bool :=
  Nat.ltb 0 (List.length (categories p)) || Nat.ltb 0 (List.length (regions p)).

(** The buttons of the template: per dimension the "All" button and one
    button per entry ([v-for]), named by its index. *)
Inductive control : Type :=
| CategoryAll
| CategoryChoice (i : nat)
| LevelAll
| LevelChoice (i : nat)
| RegionAll
| RegionChoice (i : nat).

Definition is_all (c : control) : bool :=
  match c with
  | CategoryAll | LevelAll | RegionAll => true
  | _ => false
  end.

(** A click on a control: the event it emits, or [None] when the template
    does not render the control. *)
Definition click (p : Props) (c : control) : option FilterChange :=
  if negb (hasFilters p) then None
  else
    match c with
    | CategoryAll =>
        if Nat.ltb 0 (List.length (categories p))
        then Some (selectCategory VNull) else None
    | CategoryChoice i =>
        if Nat.ltb 0 (List.length (categories p))
        then option_map (fun cat => selectCategory (VString (Data.name cat)))
                        (nth_error (categories p) i)
        else None
    | LevelAll => Some (selectMinScore VNull)
    | LevelChoice i =>
        option_map (fun lv => selectMinScore (VNumber (min lv)))
                   (nth_error ratingLevels i)
    | RegionAll =>
        if Nat.ltb 0 (List.length (regions p))
        then Some (selectRegion VNull) else None
    | RegionChoice i =>
        if Nat.ltb 0 (List.length (regions p))
        then option_map (fun r => selectRegion (VString (Data.name r)))
                        (nth_error (regions p) i)
        else None
    end.

(** Whether a choice is the active one, as the template tests it:
    [activeCategory === cat.name], [activeMinScore === level.min],
    [activeRegion === region.name]. *)
Definition choice_is_active (p : Props) (c : control) : bool :=
  match c with
  | CategoryChoice i =>
      match activeCategory p, nth_error (categories p) i with
      | Some a, Some cat => String.eqb a (Data.name cat)
      | _, _ => false
      end
  | LevelChoice i =>
      match activeMinScore p, nth_error ratingLevels i with
      | Some a, Some lv => Js.strict_eq a (min lv)
      | _, _ => false
      end
  | RegionChoice i =>
      match activeRegion p, nth_error (regions p) i with
      | Some a, Some r => String.eqb a (Data.name r)
      | _, _ => false
      end
  | _ => false
  end.

(** The active value of a dimension, as passed in the props. *)
Definition active_value (p : Props) (d : dimension) : value :=
  match d with
  | category => match activeCategory p with Some s => VString s | None => VNull end
  | region => match activeRegion p with Some s => VString s | None => VNull end
  | minScore => match activeMinScore p with Some q => VNumber q | None => VNull end
  end.

(** [handleFilterChange({ type, value })] of [App.vue]: the call
    [setFilter(type, value)] into the feed controller. *)
Inductive call : Type := SetFilter (d : dimension) (v : value).

Definition handleFilterChange (ev : FilterChange) : call :=
  SetFilter (type ev) (payload ev).

End FilterBar.

(** ** The hope-level badge ([HopeLevel.vue]) *)

Module HopeLevel.

(** The entries of [levels] (colour classes and icons are left out). *)
Record Level : Type := mkLevel { min : Q; label : string; tier : nat }.

Definition levels : list Level :=
  [ {| min := 90; label := "Radiant"; tier := 5 |};
    {| min := 80; label := "Inspiring"; tier := 4 |};
    {| min := 70; label := "Uplifting"; tier := 3 |};
    {| min := 60; label := "Hopeful"; tier := 2 |};
    {| min := 50; label := "Encouraging"; tier := 1 |} ].

(** The computed property [level]:
    [levels.find((l) => props.score >= l.min) || levels[levels.length - 1]],
    and [null] for a [null] score. *)
Definition level (score : option Q) : option Level :=
  match score with
  | None => None
  | Some sc =>
      match List.find (fun l => Js.ge sc (min l)) levels with
      | Some l => Some l
      | None => nth_error levels (List.length levels - 1)
      end
  end.

(** [<span v-if="level" ...>]: the badge is rendered when [level] is not
    [null]. *)
Definition renders_badge (score : option Q) : bool :=
  match level score with Some _ => true | None => false end.

(** The label shown in the badge, when there is one. *)
Definition badge_label (score : option Q) : option string :=
  option_map label (level score).

(** The badge of an article card: [<HopeLevel :score="article.hopefulness_score" />]. *)
Definition article_badge (a : Data.Article) : option string :=
  badge_label (Data.hopefulness_score a).

End HopeLevel.

(** ** Regular expressions of the shape used by [cleanSummary]

    A pattern is a sequence of atoms, each a character class taken once or
    under a greedy star.  [match_here] is the backtracking matcher anchored
    at the start of the input: it returns the length of the first match in
    priority order (a star takes as many characters as it can and gives them
    back one by one while the rest of the pattern fails). *)

Module Regex.

Section Matcher.
Variable char : Type.

Inductive atom : Type :=
| One (cls : char -> bool)
| Star (cls : char -> bool).

Definition regex : Type := list atom.

Fixpoint match_here (r : regex) (s : list char) {struct r} : option nat :=
  match r with
  | [] => Some O
  | One cls :: r' =>
      match s with
      | c :: s' => if cls c then option_map S (match_here r' s') else None
      | [] => None
      end
  | Star cls :: r' =>
      (fix star (s : list char) : option nat :=
         match s with
         | c :: s' =>
             if cls c then
               match star s' with
               | Some n => Some (S n)
               | None => match_here r' s
               end
             else match_here r' s
         | [] => match_here r' s
         end) s
  end.

(** [s.replace(/r/g, '')]: the input is scanned from the left; where the
    pattern matches, the matched characters are dropped and the scan goes on
    after them; elsewhere the character is kept.  [skip] is the number of
    characters of the current match still to drop.  (After an empty match the
    scan moves on by one character, which is kept.) *)
Fixpoint remove_matches (r : regex) (skip : nat) (s : list char) : list char :=
  match s with
  | [] => []
  | c :: s' =>
      match skip with
      | S k => remove_matches r k s'
      | O =>
          match match_here r s with
          | Some (S n) => remove_matches r n s'
          | Some O => c :: remove_matches r O s'
          | None => c :: remove_matches r O s'
          end
      end
  end.

Definition replace_all_with_empty (r : regex) (s : list char) : list char :=
  remove_matches r O s.

End Matcher.

Arguments One {char} cls.
Arguments Star {char} cls.
Arguments match_here {char} r s.
Arguments remove_matches {char} r skip s.
Arguments replace_all_with_empty {char} r s.

End Regex.

(** ** The article card ([ArticleCard.vue]) *)

Module ArticleCard.
Import Async.
Local Open Scope exec_scope.
Local Open Scope string_scope.

Definition lt_sign : ascii := "<"%char.
Definition gt_sign : ascii := ">"%char.

(** [/<[^>]*>/] *)
Definition tag_pattern : Regex.regex ascii :=
  [ Regex.One (Ascii.eqb lt_sign);
    Regex.Star (fun c => negb (Ascii.eqb c gt_sign));
    Regex.One (Ascii.eqb gt_sign) ].

(** [[^>]*>], what is left of the pattern after its first atom. *)
Definition tail_pattern : Regex.regex ascii := List.tl tag_pattern.

(** [s.replace(/<[^>]*>/g, '')] *)
Definition strip_tags (s : string) : string :=
  string_of_list_ascii
    (Regex.replace_all_with_empty tag_pattern (list_ascii_of_string s)).

(** [x || ''] on a string or [undefined]. *)
Definition or_empty (x : option string) : string :=
  match x with
  | Some s => if String.eqb s EmptyString then EmptyString else s
  | None => EmptyString
  end.

(** The computed property [cleanSummary]:
    [props.article.summary?.replace(/<[^>]*>/g, '').substring(0, 150) || ''] *)
Definition cleanSummary (a : Data.Article) : string :=
  or_empty (option_map (fun s => String.substring 0 150 (strip_tags s))
                       (Data.summary a)).

(** A string contains a tag when a ["<"] is followed, at any distance, by
    a [">"]. *)
Definition contains_tag (l : list ascii) : Prop :=
  exists before inside after,
    l = (before ++ lt_sign :: inside ++ gt_sign :: after)%list.

(** *** Sharing *)

Record ShareData : Type := mkShareData { title : string; text : string; url : string }.

Inductive call : Type :=
| NavigatorShare (d : ShareData)         (* navigator.share(shareData) *)
| ClipboardWriteText (t : string).       (* navigator.clipboard.writeText(t) *)

(** The refs behind the toast. *)
Record Toast : Type := mkToast { showToast : bool; toastMessage : string }.

(** The browser: [share] is [None] when [navigator.share] is missing and
    otherwise tells how the share promise settles; [clipboard] is [None]
    when [navigator.clipboard] is undefined (an insecure context, an old
    browser) and otherwise tells how the promise of [writeText] settles. *)
Record Navigator : Type := mkNavigator {
  share : option (settled unit);
  clipboard : option (settled unit)
}.

(** The exception of a member access on [undefined]. *)
Definition TypeError : error := {| err_name := "TypeError" |}.

Definition set_toastMessage (m : string) (t : Toast) : Toast :=
  {| showToast := showToast t; toastMessage := m |}.

Definition set_showToast (b : bool) (t : Toast) : Toast :=
  {| showToast := b; toastMessage := toastMessage t |}.

(** [await navigator.clipboard.writeText(t)]: with [navigator.clipboard]
    undefined the member access throws before any call is made; otherwise the
    call is made and its promise awaited. *)
Definition await_writeText (nav : Navigator) (t : string) : Exec Toast call unit :=
  match clipboard nav with
  | Some reply => emit (ClipboardWriteText t) ;;; await reply
  | None => throw TypeError
  end.

(** [copyToClipboard] *)
Definition copyToClipboard (nav : Navigator) (a : Data.Article) : Exec Toast call unit :=
  try_catch
    (await_writeText nav (Data.source_url a) ;;;
     modify (set_toastMessage "Link copied!") ;;;
     modify (set_showToast true))
    (fun _ =>
     modify (set_toastMessage "Failed to copy") ;;;
     modify (set_showToast true)).

(** [handleShare]; [copyToClipboard] catches everything, so calling it
    without [await] is calling it. *)
Definition handleShare (nav : Navigator) (a : Data.Article) : Exec Toast call unit :=
  let shareData :=
    {| title := Data.headline a; text := cleanSummary a; url := Data.source_url a |} in
  match share nav with
  | Some reply =>
      try_catch
        (emit (NavigatorShare shareData) ;;;
         await reply)
        (fun err =>
           if negb (String.eqb (err_name err) "AbortError")
           then copyToClipboard nav a
           else ret tt)
  | None => copyToClipboard nav a
  end.

(** The calls [copyToClipboard] can make: the write of the source URL when
    there is a clipboard, none when there is not. *)
Definition copy_calls (nav : Navigator) (a : Data.Article) : list call :=
  match clipboard nav with
  | Some _ => [ClipboardWriteText (Data.source_url a)]
  | None => []
  end.


(** The cases in which the share action falls back to the clipboard: no Web
    Share API, or a share that fails with something else than [AbortError]. *)
Definition falls_back (nav : Navigator) : bool :=
  match share nav with
  | None => true
  | Some (Rejected err) => negb (String.eqb (err_name err) "AbortError")
  | Some (Fulfilled _) => false
  end.


End ArticleCard.

(** ** The pull indicator ([ArticleFeed.vue]: the computed properties and the
    indicator block of the template) *)

Module PullIndicator.
Import PullToRefresh.
Local Open Scope string_scope.

(** [Math.min(pullDistance.value / PULL_THRESHOLD, 1)] *)
Definition pullProgress (g : GestureState) : Q :=
  Js.Math_min (pullDistance g / PULL_THRESHOLD) 1.

(** [isPulling.value || isRefreshing.value] *)
Definition showPullIndicator (g : GestureState) : bool :=
  isPulling g || isRefreshing g.

(** The text of the indicator:
    [isRefreshing ? 'Refreshing...' : pullProgress >= 1 ? 'Release to refresh' : 'Pull to refresh'] *)
Definition pullText (g : GestureState) : string :=
  if isRefreshing g then "Refreshing..."
  else if Js.ge (pullProgress g) 1 then "Release to refresh"
  else "Pull to refresh".

(** The bound style: [height: pullDistance px], [opacity: showPullIndicator ? 1 : 0]
    and, on the icon, [rotate(pullProgress * 180 deg)]. *)
Definition indicator_height (g : GestureState) : Q := pullDistance g.

Definition indicator_opacity (g : GestureState) : Q :=
  if showPullIndicator g then 1 else 0.

Definition icon_rotation (g : GestureState) : Q := pullProgress g * 180.

End PullIndicator.

(** ** The feed view ([ArticleFeed.vue]: the template above the footer) *)

Module FeedView.
Import LoadMore.

(** A string or [null] used as a condition: [null] and the empty string are
    falsy. *)
Definition truthy (e : option string) : bool :=
  match e with
  | Some s => negb (String.eqb s EmptyString)
  | None => false
  end.

(** [<p v-if="!loading && articles.length > 0">]: the results count. *)
Definition shows_results_count (f : FeedState) : bool :=
  negb (loading f) && Nat.ltb 0 (List.length (articles f)).

(** [<ErrorMessage v-if="error && !loading" ... />]: the error banner with
    its retry button. *)
Definition shows_error_banner (f : FeedState) : bool :=
  truthy (error f) && negb (loading f).

(** The [v-if] / [v-else-if] / [v-else-if] chain in the middle of the
    template; when no branch applies nothing is rendered. *)
Inductive main_area : Type :=
| Skeleton        (* v-if="loading && articles.length === 0" *)
| Grid            (* v-else-if="articles.length > 0" *)
| EmptyState      (* v-else-if="!loading && !error" *)
| Blank.

Definition render_main (f : FeedState) : main_area :=
  if loading f && Nat.eqb (List.length (articles f)) 0 then Skeleton
  else if Nat.ltb 0 (List.length (articles f)) then Grid
  else if negb (loading f) && negb (truthy (error f)) then EmptyState
  else Blank.

End FeedView.

(** ** The touch listeners ([ArticleFeed.vue]: [onMounted], [onUnmounted]) *)

Module Listeners.

(** The listeners that can sit on [document]: the three handlers of this
    component instance, and those of anybody else. *)
Inductive listener : Type :=
| OnTouchStart
| OnTouchMove
| OnTouchEnd
| Foreign (n : nat).

Definition listener_eqb (a b : listener) : bool :=
  match a, b with
  | OnTouchStart, OnTouchStart => true
  | OnTouchMove, OnTouchMove => true
  | OnTouchEnd, OnTouchEnd => true
  | Foreign n, Foreign m => Nat.eqb n m
  | _, _ => false
  end.

(** An entry of the event listener list of [document]: the event type and
    the callback (all registrations here are for the bubbling phase). *)
Definition entry : Type := (string * listener)%type.

Definition entry_eqb (a b : entry) : bool :=
  String.eqb (fst a) (fst b) && listener_eqb (snd a) (snd b).

(** [document.addEventListener(type, l, options)]: appended unless the same
    listener is already registered for the type. *)
Definition addEventListener (type : string) (l : listener) (reg : list entry)
  : list entry :=
  if existsb (entry_eqb (type, l)) reg then reg else (reg ++ [(type, l)])%list.

(** [document.removeEventListener(type, l)] *)
Definition removeEventListener (type : string) (l : listener) (reg : list entry)
  : list entry :=
  filter (fun e => negb (entry_eqb (type, l) e)) reg.

(** What the hooks read from the browser. *)
Record Device : Type := mkDevice {
  ontouchstart_in_window : bool;     (* 'ontouchstart' in window *)
  maxTouchPoints : Q                 (* navigator.maxTouchPoints *)
}.

(** The ref [isTouchDevice], the listener list of [document], and the length
    of the feed's article list. *)
Record World : Type := mkWorld {
  isTouchDevice : bool;
  registered : list entry;
  feed_length : nat
}.

Inductive call : Type := FetchArticles (reset : bool).

(** [onMounted] *)
Definition onMounted (d : Device) (w : World) : World * list call :=
  let touch := ontouchstart_in_window d || Js.gt (maxTouchPoints d) 0 in
  let reg :=
    if touch then
      addEventListener "touchend" OnTouchEnd
        (addEventListener "touchmove" OnTouchMove
           (addEventListener "touchstart" OnTouchStart (registered w)))
    else registered w in
  ({| isTouchDevice := touch; registered := reg; feed_length := feed_length w |},
   if Nat.eqb (feed_length w) 0 then [FetchArticles true] else []).

(** [onUnmounted] *)
Definition onUnmounted (w : World) : World :=
  if isTouchDevice w then
    {| isTouchDevice := isTouchDevice w;
       registered :=
         removeEventListener "touchend" OnTouchEnd
           (removeEventListener "touchmove" OnTouchMove
              (removeEventListener "touchstart" OnTouchStart (registered w)));
       feed_length := feed_length w |}
  else w.

(** [handleRetry], the handler of the banner's retry button. *)
Definition handleRetry : list call := [FetchArticles true].

Definition own (l : listener) : bool :=
  match l with Foreign _ => false | _ => true end.

(** A listener list that holds none of this component's handlers. *)
Definition foreign_only (reg : list entry) : Prop :=
  forall e, In e reg -> own (snd e) = false.

End Listeners.

(** ** Dark mode ([useDarkMode.js], and its inline copy in [AppHeader.vue]) *)

Module DarkMode.
Local Open Scope string_scope.

(** [document.documentElement.classList], a token list without repeats. *)
Definition contains (c : string) (l : list string) : bool :=
  existsb (String.eqb c) l.

Definition add (c : string) (l : list string) : list string :=
  if contains c l then l else (l ++ [c])%list.

Definition remove (c : string) (l : list string) : list string :=
  filter (fun x => negb (String.eqb c x)) l.

(** [localStorage] *)
Definition Storage : Type := string -> option string.

Definition getItem (k : string) (st : Storage) : option string := st k.

Definition setItem (k v : string) (st : Storage) : Storage :=
  fun k' => if String.eqb k' k then Some v else st k'.

Record Browser : Type := mkBrowser {
  classes : list string;
  localStorage : Storage;
  prefers_dark : bool     (* matchMedia('(prefers-color-scheme: dark)').matches *)
}.

(** [getInitialDarkMode()]; [window] is [None] where [typeof window] is
    ['undefined']. *)
Definition getInitialDarkMode (window : option Browser) : bool :=
  match window with
  | None => false
  | Some b =>
      match getItem "darkMode" (localStorage b) with
      | Some stored => String.eqb stored "true"
      | None => prefers_dark b
      end
  end.

(** [apply()] of [useDarkMode.js], with [isDark.value] as argument. *)
Definition apply (isDark : bool) (b : Browser) : Browser :=
  {| classes := if isDark then add "dark" (classes b) else remove "dark" (classes b);
     localStorage :=
       setItem "darkMode" (if isDark then "true" else "false") (localStorage b);
     prefers_dark := prefers_dark b |}.

(** [toggle()] of [useDarkMode.js]. *)
Definition toggle (isDark : bool) (b : Browser) : bool * Browser :=
  let isDark' := negb isDark in
  (isDark', apply isDark' b).

(** [onMounted] of [AppHeader.vue], first statement:
    [isDark.value = document.documentElement.classList.contains('dark')]. *)
Definition AppHeader_sync (b : Browser) : bool := contains "dark" (classes b).

(** [toggle()] of [AppHeader.vue]. *)
Definition AppHeader_toggle (isDark : bool) (b : Browser) : bool * Browser :=
  let isDark' := negb isDark in
  let cls := if isDark' then add "dark" (classes b) else remove "dark" (classes b) in
  (isDark',
   {| classes := cls;
      localStorage :=
        setItem "darkMode" (if isDark' then "true" else "false") (localStorage b);
      prefers_dark := prefers_dark b |}).

(** The header mounted on a page, then its button clicked [n] times. *)
Fixpoint AppHeader_clicks (n : nat) (b : Browser) : bool * Browser :=
  match n with
  | O => (AppHeader_sync b, b)
  | S k => let '(d, b') := AppHeader_clicks k b in AppHeader_toggle d b'
  end.

End DarkMode.

(** ** The bar of the hope-level badge ([HopeLevel.vue]: [barWidth]) *)

Module HopeBar.
Import HopeLevel.

(** The tier number of the level, 0 when there is none. *)
Definition tier_of (score : option Q) : nat :=
  match level score with
  | Some l => tier l
  | None => O
  end.

(** The computed property [barWidth], as the number in front of the percent
    sign: [(level.value.tier / 5) * 100], and 0 when there is no level. *)
Definition barWidth (score : option Q) : Q :=
  match level score with
  | Some l => (inject_Z (Z.of_nat (tier l)) / 5) * 100
  | None => 0
  end.

End HopeBar.

(** ** Relative time ([ArticleCard.vue]: [formatRelativeTime]) *)

Module RelativeTime.
Local Open Scope Z_scope.

(** The argument of [formatRelativeTime] as [new Date(dateString)] sees it:
    missing or empty, unparsable (a [NaN] time value), or a time value in
    milliseconds. *)
Inductive date_arg : Type :=
| NoDate
| InvalidDate
| Time (ms : Z).

(** What is displayed: nothing, ["now"], a count followed by ["m"], ["h"] or
    ["d"], or the calendar date of [toLocaleDateString]. *)
Inductive label : Type :=
| Nothing
| Now
| Minutes (n : Z)
| Hours (n : Z)
| Days (n : Z)
| CalendarDate.

(** [formatRelativeTime(dateString)], with [now] the time value of
    [new Date()].  [Math.floor(x / n)] on integers is [x / n].  With a [NaN]
    time value every comparison fails and the calendar branch is taken. *)
Definition formatRelativeTime (d : date_arg) (now : Z) : label :=
  match d with
  | NoDate => Nothing
  | InvalidDate => CalendarDate
  | Time date =>
      let diffMs := now - date in
      let diffSeconds := diffMs / 1000 in
      let diffMinutes := diffSeconds / 60 in
      let diffHours := diffMinutes / 60 in
      let diffDays := diffHours / 24 in
      if diffSeconds <? 60 then Now
      else if diffMinutes <? 60 then Minutes diffMinutes
      else if diffHours <? 24 then Hours diffHours
      else if diffDays <? 7 then Days diffDays
      else CalendarDate
  end.

End RelativeTime.

(** ** Subsequences, for what [replace] keeps of its input *)

Module Subseq.

Inductive subseq {A : Type} : list A -> list A -> Prop :=
| subseq_nil : subseq [] []
| subseq_skip : forall x l m, subseq l m -> subseq l (x :: m)
| subseq_keep : forall x l m, subseq l m -> subseq (x :: l) (x :: m).

End Subseq.

(** ** The header counter, the props of the filter bar, and the highlighted
    controls ([AppHeader.vue], [App.vue] and [FilterBar.vue] templates) *)

Module AppView.

(** [<span v-if="todayCount !== null">{{ todayCount }} new today</span>] *)
Definition shows_today_counter (p : Auxiliary.Page) : bool :=
  match Auxiliary.todayCount p with
  | Some _ => true
  | None => false
  end.

(** The props [App.vue] binds on [<FilterBar>]: its own [categories] and
    [regions] refs and the three fields of the controller's [filters]. *)
Definition filter_props (p : Auxiliary.Page)
    (category region : option string) (minScore : option Q) : FilterBar.Props :=
  {| FilterBar.categories := Auxiliary.categories p;
     FilterBar.regions := Auxiliary.regions p;
     FilterBar.activeCategory := category;
     FilterBar.activeRegion := region;
     FilterBar.activeMinScore := minScore |}.

End AppView.

Module FilterHighlight.
Import FilterBar.

(** The row a control sits in. *)
Definition row (c : control) : dimension :=
  match c with
  | CategoryAll | CategoryChoice _ => category
  | LevelAll | LevelChoice _ => minScore
  | RegionAll | RegionChoice _ => region
  end.

(** [!x] for a string or [null], and for a number or [null]. *)
Definition falsy_string (x : option string) : bool :=
  match x with
  | Some s => String.eqb s EmptyString
  | None => true
  end.

Definition falsy_number (x : option Q) : bool :=
  match x with
  | Some q => Js.strict_eq q 0
  | None => true
  end.

(** Whether a control is drawn in its active colours: the "All" buttons
    test [!activeCategory], [!activeMinScore], [!activeRegion]; the choices
    test equality with their own value. *)
Definition highlighted (p : Props) (c : control) : bool :=
  match c with
  | CategoryAll => falsy_string (activeCategory p)
  | LevelAll => falsy_number (activeMinScore p)
  | RegionAll => falsy_string (activeRegion p)
  | _ => choice_is_active p c
  end.

(** The names of a facet list are usable as keys: distinct and not empty. *)
Definition proper_names (l : list Data.Facet) : Prop :=
  NoDup (map Data.name l) /\ ~ In EmptyString (map Data.name l).

End FilterHighlight.

(** * Proofs *)

(** ** Facts about the comparison operators *)

Module JsFacts.

Lemma gt_true x y : Js.gt x y = true <-> y < x.
Proof.
  unfold Js.gt. rewrite negb_true_iff, <- not_true_iff_false, Qle_bool_iff.
  split; [apply Qnot_le_lt | apply Qlt_not_le].
Qed.

Lemma gt_false x y : Js.gt x y = false <-> x <= y.
Proof. unfold Js.gt. rewrite negb_false_iff. apply Qle_bool_iff. Qed.

Lemma ge_true x y : Js.ge x y = true <-> y <= x.
Proof. apply Qle_bool_iff. Qed.

Lemma ge_false x y : Js.ge x y = false <-> x < y.
Proof.
  unfold Js.ge. rewrite <- not_true_iff_false, Qle_bool_iff.
  split; [apply Qnot_le_lt | apply Qlt_not_le].
Qed.

Lemma strict_eq_true x y : Js.strict_eq x y = true <-> x == y.
Proof. apply Qeq_bool_iff. Qed.

Lemma strict_eq_false x y : Js.strict_eq x y = false <-> ~ x == y.
Proof.
  unfold Js.strict_eq. rewrite <- not_true_iff_false, Qeq_bool_iff. tauto.
Qed.

End JsFacts.

(** ** Pull-to-refresh: the invariant and the claims *)

Module PullToRefreshFacts.
Import PullToRefresh.

Lemma Math_min_range d : 0 < d -> 0 <= Js.Math_min (d * (1 # 2)) MAX_PULL <= MAX_PULL.
Proof.
  intros Hd. unfold Js.Math_min, MAX_PULL.
  destruct (Q.min_spec (d * (1 # 2)) 120) as [[Hlt Heq] | [Hle Heq]];
    rewrite Heq; split; lra.
Qed.

Lemma inv_boot : inv boot.
Proof.
  split; cbn; unfold MAX_PULL; try lra; try discriminate; auto.
Qed.

Lemma inv_step e s : inv s -> inv (fst (step e s)).
Proof.
  intros [Hr Href Hq]. destruct s as [[pd pulling refreshing y0] n].
  cbn in Hr, Href, Hq.
  destruct e as [scrollY clientY | scrollY clientY | | ]; cbn.
  - (* touch-start *)
    unfold onTouchStart; cbn.
    destruct refreshing; cbn.
    + split; cbn; auto.
    + destruct (Js.gt scrollY 0); split; cbn; auto; try discriminate.
      intros _. split; [apply Hq; reflexivity | discriminate].
  - (* touch-move *)
    unfold onTouchMove; cbn.
    destruct pulling; cbn; [ | split; cbn; auto].
    destruct refreshing; cbn; [split; cbn; auto | ].
    destruct (Js.gt (clientY - y0) 0) eqn:Hdiff; cbn.
    + destruct (Js.strict_eq scrollY 0); cbn; split; cbn;
        try discriminate; unfold MAX_PULL; try lra.
      * apply Math_min_range. apply JsFacts.gt_true in Hdiff. exact Hdiff.
      * intros _. split; [apply Hq; reflexivity | discriminate].
      * intros _. split; [apply Hq; reflexivity | reflexivity].
    + split; cbn; try discriminate; unfold MAX_PULL; try lra.
      intros _. split; [apply Hq; reflexivity | reflexivity].
  - (* touch-end *)
    unfold onTouchEnd; cbn.
    destruct pulling; cbn; [ | split; cbn; auto].
    destruct (Js.ge pd PULL_THRESHOLD); cbn.
    + destruct refreshing.
      * destruct (Href eq_refl) as [Hp _]. discriminate.
      * destruct (Hq eq_refl) as [Hn _]. subst n.
        split; cbn; unfold MAX_PULL; try lra; try discriminate; auto.
    + split; cbn; unfold MAX_PULL; try lra; auto.
      * intros Ht. destruct (Href Ht) as [Hp _]. discriminate.
      * intros Hf. split; [apply Hq; exact Hf | reflexivity].
  - (* the refresh fetch settles *)
    destruct n as [ | n]; cbn; [split; cbn; auto | ].
    split; cbn; unfold MAX_PULL; try lra; try discriminate.
    intros _. destruct refreshing.
    + destruct (Href eq_refl) as (_ & _ & Hn). injection Hn as ->. auto.
    + destruct (Hq eq_refl) as [Hn _]. discriminate.
Qed.

Lemma reachable_inv s : reachable s -> inv s.
Proof.
  induction 1 as [ | e s _ IH]; [apply inv_boot | apply inv_step, IH].
Qed.

Lemma reachable_run evs s : reachable s -> reachable (fst (run evs s)).
Proof.
  revert s. induction evs as [ | e evs IH]; intros s Hs; cbn; [exact Hs | ].
  destruct (step e s) as [s1 out1] eqn:E1.
  specialize (IH s1). destruct (run evs s1) as [s2 out2]. cbn in *.
  apply IH. change s1 with (fst (s1, out1)). rewrite <- E1.
  apply reach_step, Hs.
Qed.

Lemma run_app evs1 evs2 s :
  run (evs1 ++ evs2) s =
  let '(s1, out1) := run evs1 s in
  let '(s2, out2) := run evs2 s1 in
  (s2, out1 ++ out2).
Proof.
  revert s. induction evs1 as [ | e evs1 IH]; intros s; cbn.
  - destruct (run evs2 s) as [s2 out2]. reflexivity.
  - destruct (step e s) as [s1 out1]. rewrite IH.
    destruct (run evs1 s1) as [s1' out1'].
    destruct (run evs2 s1') as [s2 out2].
    rewrite app_assoc. reflexivity.
Qed.

Lemma fetch_calls_app out1 out2 :
  fetch_calls (out1 ++ out2) = fetch_calls out1 ++ fetch_calls out2.
Proof.
  induction out1 as [ | [reset | | ] out1 IH]; cbn; [reflexivity | | | ];
    rewrite IH; reflexivity.
Qed.

(** Only touch-end calls the feed. *)
Lemma step_no_fetch e s : e <> TouchEnd -> fetch_calls (snd (step e s)) = [].
Proof.
  intros He. destruct e as [scrollY clientY | scrollY clientY | | ]; cbn.
  - reflexivity.
  - unfold onTouchMove.
    destruct (negb (isPulling (gesture s)) || isRefreshing (gesture s)); cbn;
      [reflexivity | ].
    destruct (Js.gt _ 0 && Js.strict_eq scrollY 0); reflexivity.
  - contradiction.
  - destruct (parked s); reflexivity.
Qed.

Lemma run_no_fetch evs s :
  Forall (fun e => e <> TouchEnd) evs -> fetch_calls (snd (run evs s)) = [].
Proof.
  intros Hall. revert s.
  induction Hall as [ | e evs He _ IH]; intros s; cbn; [reflexivity | ].
  pose proof (step_no_fetch e s He) as H1.
  destruct (step e s) as [s1 out1]. specialize (IH s1).
  destruct (run evs s1) as [s2 out2]. cbn in *.
  rewrite fetch_calls_app, H1, IH. reflexivity.
Qed.

(** What touch-end calls, in a state the event loop can be in. *)
Lemma touch_end_fetch s :
  inv s ->
  fetch_calls (snd (step TouchEnd s)) =
  if Js.ge (pullDistance (gesture s)) PULL_THRESHOLD then [true] else [].
Proof.
  intros [Hr Href Hq]. destruct s as [[pd pulling refreshing y0] n].
  cbn in *. unfold onTouchEnd; cbn.
  destruct pulling; cbn.
  - destruct (Js.ge pd PULL_THRESHOLD); reflexivity.
  - assert (Hlow : pd < PULL_THRESHOLD).
    { destruct refreshing.
      - destruct (Href eq_refl) as (_ & -> & _). reflexivity.
      - destruct (Hq eq_refl) as [_ ->]; reflexivity. }
    apply JsFacts.ge_false in Hlow. rewrite Hlow. reflexivity.
Qed.

(** C1: for every gesture that the handlers complete (touch events and
    fetch settlements in any order, closed by a touch-end), the touch-end
    triggers exactly one [fetchArticles(true)] and nothing else on the feed
    when the pull distance accumulated at touch-end is at least
    [PULL_THRESHOLD] = 80, and no fetch at all when it is below 80. *)
Theorem pull_gesture_fetches_once_at_threshold (s : System) (evs : list event) :
  reachable s ->
  Forall (fun e => e <> TouchEnd) evs ->
  let at_end := fst (run evs s) in
  let calls := fetch_calls (snd (run (evs ++ [TouchEnd]) s)) in
  (PULL_THRESHOLD <= pullDistance (gesture at_end) -> calls = [true]) /\
  (pullDistance (gesture at_end) < PULL_THRESHOLD -> calls = []).
Proof.
  intros Hs Hevs at_end calls.
  assert (Hcalls : calls =
    if Js.ge (pullDistance (gesture at_end)) PULL_THRESHOLD then [true] else []).
  { subst calls at_end. rewrite run_app.
    pose proof (run_no_fetch evs s Hevs) as Hno.
    pose proof (reachable_inv _ (reachable_run evs s Hs)) as Hinv.
    destruct (run evs s) as [s1 out1]. cbn [fst snd] in Hno, Hinv.
    pose proof (touch_end_fetch s1 Hinv) as Hend.
    cbn [run]. destruct (step TouchEnd s1) as [s2 out2]. cbn [fst snd] in Hend |- *.
    rewrite app_nil_r, fetch_calls_app, Hno, Hend. reflexivity. }
  rewrite Hcalls. split; intros H.
  - apply JsFacts.ge_true in H. rewrite H. reflexivity.
  - apply JsFacts.ge_false in H. rewrite H. reflexivity.
Qed.

Lemma pull_gesture_fetches_once_at_threshold_witness :
  fetch_calls
    (snd (run ([TouchStart 0 100; TouchMove 0 300] ++ [TouchEnd]) boot)) = [true]
  /\ fetch_calls
    (snd (run ([TouchStart 0 100; TouchMove 0 180] ++ [TouchEnd]) boot)) = [].
Proof.
  split.
  - apply (pull_gesture_fetches_once_at_threshold boot
             [TouchStart 0 100; TouchMove 0 300]).
    + apply reach_boot.
    + repeat constructor; discriminate.
    + vm_compute. discriminate.
  - apply (pull_gesture_fetches_once_at_threshold boot
             [TouchStart 0 100; TouchMove 0 180]).
    + apply reach_boot.
    + repeat constructor; discriminate.
    + vm_compute. reflexivity.
Defined.

(** The guard of [onTouchStart], for any state of the refs. *)
Lemma onTouchStart_guarded scrollY clientY g :
  isRefreshing g = true \/ 0 < scrollY -> onTouchStart scrollY clientY g = g.
Proof.
  unfold onTouchStart. intros [Href | Hpos].
  - rewrite Href. reflexivity.
  - apply JsFacts.gt_true in Hpos. rewrite Hpos, orb_true_r. reflexivity.
Qed.

(** C2, as the claim words it, fails: at a negative scroll offset (an
    overscrolled page) the offset is non-zero and no refresh is in flight,
    yet touch-start begins a pull. *)
Lemma touch_start_at_negative_offset_begins_pull :
  ~ (-1 == 0) /\
  isRefreshing initial = false /\
  onTouchStart (-1) 100 initial <> initial /\
  isPulling (onTouchStart (-1) 100 initial) = true.
Proof.
  repeat split; try discriminate; reflexivity.
Qed.

(** C2 (amended): in every state the event loop can reach, touch-start
    leaves the gesture state unchanged, and emits nothing, while a refresh is
    in flight or while the vertical scroll offset is positive; and at most
    one refresh-triggered feed fetch is in flight, namely exactly while
    [isRefreshing] is set. *)
Theorem touch_start_guard_and_single_refresh (s : System) :
  reachable s ->
  (forall scrollY clientY,
     isRefreshing (gesture s) = true \/ 0 < scrollY ->
     step (TouchStart scrollY clientY) s = (s, [])) /\
  (parked s <= 1)%nat /\
  (parked s = 1%nat <-> isRefreshing (gesture s) = true).
Proof.
  intros Hs. split.
  - intros scrollY clientY Hguard. destruct s as [g n]. cbn in *.
    rewrite (onTouchStart_guarded scrollY clientY g Hguard). reflexivity.
  - destruct (reachable_inv s Hs) as [_ Href Hq].
    destruct (isRefreshing (gesture s)).
    + destruct (Href eq_refl) as (_ & _ & ->). split; [lia | tauto].
    + destruct (Hq eq_refl) as [-> _]. split; [lia | ].
      split; intros; discriminate.
Qed.

Lemma touch_start_guard_and_single_refresh_witness :
  let s := fst (run [TouchStart 0 100; TouchMove 0 300; TouchEnd] boot) in
  step (TouchStart 0 40) s = (s, [])
  /\ step (TouchStart 12 40) boot = (boot, [])
  /\ (parked s <= 1)%nat.
Proof.
  intros s.
  assert (Hs : reachable s) by apply reachable_run, reach_boot.
  split; [ | split].
  - apply (touch_start_guard_and_single_refresh s Hs).
    left. vm_compute. reflexivity.
  - apply (touch_start_guard_and_single_refresh boot reach_boot).
    right. vm_compute. reflexivity.
  - apply (touch_start_guard_and_single_refresh s Hs).
Defined.

(** While a pull is active no refresh is in flight. *)
Lemma pulling_not_refreshing s :
  reachable s -> isPulling (gesture s) = true ->
  isRefreshing (gesture s) = false /\ parked s = 0%nat.
Proof.
  intros Hs Hp. destruct (reachable_inv s Hs) as [_ Href Hq].
  destruct (isRefreshing (gesture s)).
  - destruct (Href eq_refl) as [Hp' _]. congruence.
  - split; [reflexivity | apply Hq; reflexivity].
Qed.

(** C3: on a touch-move while a pull is active, a downward delta from the
    recorded start Y at scroll offset 0 sets the pull distance to
    [min (delta * 0.5) 120]; an upward move, or a non-zero scroll offset,
    resets it to 0; either way the gesture stays in the pulling state, which
    no event but touch-end leaves, and which touch-end does leave. *)
Theorem touch_move_sets_damped_capped_distance
  (s : System) (scrollY clientY : Q) :
  reachable s ->
  isPulling (gesture s) = true ->
  let delta := clientY - startY (gesture s) in
  let s' := fst (step (TouchMove scrollY clientY) s) in
  isPulling (gesture s') = true /\
  (0 < delta -> scrollY == 0 ->
     pullDistance (gesture s') = Qmin (delta * (1 # 2)) 120) /\
  (delta < 0 \/ ~ scrollY == 0 -> pullDistance (gesture s') = 0) /\
  (forall e, e <> TouchEnd -> isPulling (gesture (fst (step e s))) = true) /\
  isPulling (gesture (fst (step TouchEnd s))) = false.
Proof.
  intros Hs Hpull delta s'.
  destruct (pulling_not_refreshing s Hs Hpull) as [Hnr Hpark].
  destruct s as [[pd pulling refreshing y0] n]. cbn in *.
  subst pulling refreshing n. subst s'.
  split; [ | split; [ | split; [ | split]]].
  - cbn. unfold onTouchMove; cbn.
    destruct (Js.gt (clientY - y0) 0 && Js.strict_eq scrollY 0); reflexivity.
  - intros Hd Hy. apply JsFacts.gt_true in Hd. apply JsFacts.strict_eq_true in Hy.
    cbn. unfold onTouchMove; cbn. fold delta. rewrite Hd, Hy. reflexivity.
  - intros Hreset. cbn. unfold onTouchMove; cbn. fold delta.
    destruct (Js.gt delta 0) eqn:Hd; destruct (Js.strict_eq scrollY 0) eqn:Hy;
      try reflexivity.
    apply JsFacts.gt_true in Hd. apply JsFacts.strict_eq_true in Hy.
    destruct Hreset as [Hup | Hoff]; [lra | contradiction].
  - intros e He. destruct e as [sy cy | sy cy | | ]; cbn.
    + unfold onTouchStart; cbn. destruct (Js.gt sy 0); reflexivity.
    + unfold onTouchMove; cbn.
      destruct (Js.gt (cy - y0) 0 && Js.strict_eq sy 0); reflexivity.
    + contradiction.
    + reflexivity.
  - cbn. unfold onTouchEnd; cbn.
    destruct (Js.ge pd PULL_THRESHOLD); reflexivity.
Qed.

Lemma touch_move_sets_damped_capped_distance_witness :
  let s := fst (run [TouchStart 0 100] boot) in
  pullDistance (gesture (fst (step (TouchMove 0 230) s))) = Qmin ((230 - 100) * (1 # 2)) 120
  /\ pullDistance (gesture (fst (step (TouchMove 0 70) s))) = 0
  /\ pullDistance (gesture (fst (step (TouchMove 5 230) s))) = 0
  /\ isPulling (gesture (fst (step (TouchMove 5 230) s))) = true.
Proof.
  intros s.
  assert (Hs : reachable s) by apply reachable_run, reach_boot.
  destruct (touch_move_sets_damped_capped_distance s 0 230 Hs eq_refl)
    as (_ & Hdown & _).
  destruct (touch_move_sets_damped_capped_distance s 0 70 Hs eq_refl)
    as (_ & _ & Hup & _).
  destruct (touch_move_sets_damped_capped_distance s 5 230 Hs eq_refl)
    as (Hstay & _ & Hoff & _).
  split; [ | split; [ | split]].
  - apply Hdown; [vm_compute; reflexivity | reflexivity].
  - apply Hup. left. vm_compute. reflexivity.
  - apply Hoff. right. vm_compute. discriminate.
  - exact Hstay.
Defined.

(** C4: in every state the event loop can reach (after any touch-start,
    touch-move, touch-end or fetch settlement) the pull distance lies between
    0 and [MAX_PULL] = 120; and when the touch-end handler of a gesture has
    finished, the refresh path included, the pull distance is 0 again: the
    handler run to its end leaves 0, a settling refresh leaves 0, and an idle
    state (neither pulling nor refreshing) has pull distance 0. *)
Theorem pull_distance_bounded_and_reset (s : System) :
  reachable s ->
  0 <= pullDistance (gesture s) <= MAX_PULL /\
  (isPulling (gesture s) = true ->
     pullDistance (onTouchEnd_finished (gesture s)) = 0) /\
  (isRefreshing (gesture s) = true ->
     pullDistance (gesture (fst (step FetchSettled s))) = 0 /\
     isRefreshing (gesture (fst (step FetchSettled s))) = false) /\
  (isPulling (gesture s) = false -> isRefreshing (gesture s) = false ->
     pullDistance (gesture s) = 0).
Proof.
  intros Hs. destruct (reachable_inv s Hs) as [Hr Href Hq].
  split; [exact Hr | ]. split; [ | split].
  - intros Hp. unfold onTouchEnd_finished, onTouchEnd. rewrite Hp. cbn.
    destruct (Js.ge (pullDistance (gesture s)) PULL_THRESHOLD); reflexivity.
  - intros Ht. destruct (Href Ht) as (_ & _ & Hn). cbn. rewrite Hn. cbn.
    split; reflexivity.
  - intros Hp Hf. destruct (Hq Hf) as [_ H0]. apply H0, Hp.
Qed.

Lemma pull_distance_bounded_and_reset_witness :
  let s := fst (run [TouchStart 0 100; TouchMove 0 900] boot) in
  0 <= pullDistance (gesture s) <= MAX_PULL /\
  pullDistance (onTouchEnd_finished (gesture s)) = 0 /\
  pullDistance (gesture (fst (run [TouchEnd; FetchSettled] s))) = 0.
Proof.
  intros s.
  assert (Hs : reachable s) by apply reachable_run, reach_boot.
  split; [ | split].
  - apply (pull_distance_bounded_and_reset s Hs).
  - apply (pull_distance_bounded_and_reset s Hs). reflexivity.
  - apply (pull_distance_bounded_and_reset (fst (run [TouchEnd] s))).
    + apply reachable_run, Hs.
    + reflexivity.
Defined.

End PullToRefreshFacts.

(** ** The feed footer and [loadMore] *)

Module LoadMoreFacts.
Import LoadMore.

Lemma render_footer_button f :
  render_footer f = LoadMoreButton ->
  articles f <> [] /\ hasMore f = true /\ loading f = false.
Proof.
  unfold render_footer.
  destruct (articles f) as [ | a l]; cbn; [discriminate | ].
  destruct (hasMore f), (loading f); cbn; try discriminate.
  intros _. repeat split. discriminate.
Qed.

(** C5: [loadMore] is a no-op when [hasMore] is false or [loading] is true
    (the state is unchanged and no fetch is issued); and the template renders
    the "Load more" control only when [hasMore] is true and [loading] is
    false, so a click can only invoke [loadMore] with its preconditions
    met. *)
Theorem loadMore_noop_outside_preconditions (f : FeedState) :
  (hasMore f = false \/ loading f = true -> loadMore f = (f, [])) /\
  (render_footer f = LoadMoreButton -> hasMore f = true /\ loading f = false) /\
  (forall r, click_footer f = Some r ->
     hasMore f = true /\ loading f = false /\ r = loadMore f).
Proof.
  split; [ | split].
  - unfold loadMore. intros [H | H]; rewrite H; [ | rewrite andb_false_r]; reflexivity.
  - intros H. apply render_footer_button in H. tauto.
  - intros r. unfold click_footer.
    destruct (render_footer f) eqn:E; try discriminate.
    apply render_footer_button in E. intros [= <-]. tauto.
Qed.

Lemma loadMore_noop_outside_preconditions_witness :
  let f := {| articles := []; page := 3; hasMore := true; total := 40;
              loading := true; error := None |} in
  loadMore f = (f, []) /\ click_footer f = None.
Proof.
  intros f. split.
  - apply (proj1 (loadMore_noop_outside_preconditions f)). right. reflexivity.
  - reflexivity.
Defined.

End LoadMoreFacts.

(** ** Auxiliary data *)

Module AuxiliaryFacts.
Import Async Auxiliary.

(** C6: however the auxiliary requests settle, mounting the page ends
    normally and leaves no unhandled rejection (no error is surfaced); when
    [getCategories] or [getRegions] fails, the categories and regions lists
    stay as they were (empty on a fresh page); when [getStats] fails, the
    today-counter stays as it was (absent on a fresh page); and the feed
    fetch is issued exactly as when nothing fails: once, in reset mode, when
    the feed is empty. *)
Theorem auxiliary_failures_are_silent (b : Backend) (p0 : Page) :
  match mount b p0 with
  | (r, page, out) =>
      r = Return tt /\
      filter is_unhandled out = [] /\
      filter is_feed_fetch out =
        (if Nat.eqb (feed_length p0) 0 then [FetchArticles true] else []) /\
      (is_rejected (categories_reply b) = true \/
       is_rejected (regions_reply b) = true ->
         categories page = categories p0 /\ regions page = regions p0) /\
      (is_rejected (stats_reply b) = true -> todayCount page = todayCount p0)
  end.
Proof.
  destruct b as [cats regs stats], p0 as [c0 r0 t0 n0].
  unfold mount, AppHeader_onMounted, ArticleFeed_onMounted, App_onMounted,
    spawn, fetchStats, fetchFilters, bind, try_catch, emit, get, modify.
  destruct stats as [[st | ] | e1], cats as [cs | e2], regs as [rs | e3],
    n0 as [ | n0]; cbn;
    (split; [reflexivity | ]); (split; [reflexivity | ]);
    (split; [reflexivity | ]);
    (split; [intros [H | H]; try discriminate H; split; reflexivity
            | intros H; try discriminate H; reflexivity]).
Qed.

Lemma auxiliary_failures_are_silent_witness :
  let b := {| categories_reply := Rejected {| err_name := "NetworkError" |};
              regions_reply := Fulfilled [ {| Data.name := "Europe"; Data.count := 3%Z |} ];
              stats_reply := Rejected {| err_name := "NetworkError" |} |} in
  categories (snd (fst (mount b fresh))) = [] /\
  regions (snd (fst (mount b fresh))) = [] /\
  todayCount (snd (fst (mount b fresh))) = None /\
  filter is_feed_fetch (snd (mount b fresh)) = [FetchArticles true].
Proof.
  intros b.
  pose proof (auxiliary_failures_are_silent b fresh) as H.
  destruct (mount b fresh) as [[r page] out].
  destruct H as (_ & _ & Hfeed & Hfilters & Hstats).
  destruct (Hfilters (or_introl eq_refl)) as [Hc Hr].
  split; [exact Hc | ]. split; [exact Hr | ].
  split; [exact (Hstats eq_refl) | exact Hfeed].
Defined.

End AuxiliaryFacts.

(** ** The filter bar *)

Module FilterBarFacts.
Import FilterBar.

Lemma option_map_some {A B} (f : A -> B) (o : option A) (b : B) :
  option_map f o = Some b -> exists a, o = Some a /\ b = f a.
Proof.
  destruct o as [a | ]; cbn; [ | discriminate].
  intros [= <-]. exists a. split; reflexivity.
Qed.

(** A rendered control emits [null] exactly when it is an "All" button. *)
Ltac rendered_guard :=
  match goal with
  | |- context [if Nat.ltb 0 ?n then _ else _] =>
      destruct (Nat.ltb 0 n); [ | discriminate]
  end.

Lemma click_null_iff_all p c ev :
  click p c = Some ev -> (payload ev = VNull <-> is_all c = true).
Proof.
  unfold click. destruct (negb (hasFilters p)); [discriminate | ].
  destruct c as [ | i | | i | | i]; try rendered_guard.
  all: try (intros [= <-]; cbn; tauto).
  all: intros H; apply option_map_some in H; destruct H as (x & _ & ->); cbn;
    split; discriminate.
Qed.

(** C7: clicking the choice that is currently active in its dimension does
    not toggle it off: the filter bar emits the active value again (equal
    under [===], and not [null]) for the same dimension, and
    [handleFilterChange] passes it on to [setFilter] as it is; a rendered
    control emits [null] if and only if it is an "All" button. *)
Theorem reclick_reemits_and_only_all_clears
  (p : Props) (c : control) (ev : FilterChange) :
  click p c = Some ev ->
  (payload ev = VNull <-> is_all c = true) /\
  (choice_is_active p c = true ->
     strict_equal (payload ev) (active_value p (type ev)) = true /\
     payload ev <> VNull /\
     handleFilterChange ev = SetFilter (type ev) (payload ev)).
Proof.
  intros Hclick. split; [apply (click_null_iff_all p c ev Hclick) | ].
  intros Hact. revert Hclick. unfold click.
  destruct (negb (hasFilters p)); [discriminate | ].
  destruct c as [ | i | | i | | i]; try discriminate Hact;
    try rendered_guard; unfold choice_is_active in Hact.
  - destruct (activeCategory p) as [a | ] eqn:Ea; [ | discriminate].
    destruct (nth_error (categories p) i) as [cat | ]; [ | discriminate].
    cbn. intros [= <-]. cbn. rewrite Ea. cbn.
    rewrite String.eqb_sym. repeat split; [exact Hact | discriminate].
  - destruct (activeMinScore p) as [a | ] eqn:Ea; [ | discriminate].
    destruct (nth_error ratingLevels i) as [lv | ]; [ | discriminate].
    cbn. intros [= <-]. cbn. rewrite Ea. cbn.
    unfold Js.strict_eq in *. rewrite Qeq_bool_comm.
    repeat split; [exact Hact | discriminate].
  - destruct (activeRegion p) as [a | ] eqn:Ea; [ | discriminate].
    destruct (nth_error (regions p) i) as [r | ]; [ | discriminate].
    cbn. intros [= <-]. cbn. rewrite Ea. cbn.
    rewrite String.eqb_sym. repeat split; [exact Hact | discriminate].
Qed.

Lemma reclick_reemits_and_only_all_clears_witness :
  let p := {| categories := [ {| Data.name := "health"; Data.count := 4%Z |};
                              {| Data.name := "social"; Data.count := 2%Z |} ];
              regions := [];
              activeCategory := Some "social"%string;
              activeRegion := None;
              activeMinScore := Some 80 |} in
  strict_equal (VString "social") (active_value p category) = true /\
  strict_equal (VNumber 80) (active_value p minScore) = true /\
  (VNull = VNull <-> is_all CategoryAll = true).
Proof.
  intros p. split; [ | split].
  - exact (proj1 (proj2 (reclick_reemits_and_only_all_clears p (CategoryChoice 1)
             {| type := category; payload := VString "social" |} eq_refl) eq_refl)).
  - exact (proj1 (proj2 (reclick_reemits_and_only_all_clears p (LevelChoice 1)
             {| type := minScore; payload := VNumber 80 |} eq_refl) eq_refl)).
  - exact (proj1 (reclick_reemits_and_only_all_clears p CategoryAll
             {| type := category; payload := VNull |} eq_refl)).
Defined.

End FilterBarFacts.

(** ** The hope-level badge *)

Module HopeLevelFacts.
Import HopeLevel.

(** C8: a score that is not [null] gets exactly one of the five tiers of
    [levels], by threshold: Radiant from 90, Inspiring from 80, Uplifting
    from 70, Hopeful from 60, and Encouraging otherwise (below 50 included);
    the badge is rendered.  A [null] score has no level and renders no
    badge. *)
Theorem hope_level_by_threshold :
  (forall sc : Q,
     exists l, level (Some sc) = Some l /\ In l levels /\
               renders_badge (Some sc) = true /\
       (90 <= sc -> label l = "Radiant"%string) /\
       (80 <= sc < 90 -> label l = "Inspiring"%string) /\
       (70 <= sc < 80 -> label l = "Uplifting"%string) /\
       (60 <= sc < 70 -> label l = "Hopeful"%string) /\
       (sc < 60 -> label l = "Encouraging"%string)) /\
  level None = None /\
  renders_badge None = false /\
  (forall a, Data.hopefulness_score a = None -> article_badge a = None).
Proof.
  split; [ | split; [reflexivity | split; [reflexivity | ]]].
  - intros sc. unfold renders_badge, level, levels. cbn.
    destruct (Js.ge sc 90) eqn:H90;
      [ | destruct (Js.ge sc 80) eqn:H80;
          [ | destruct (Js.ge sc 70) eqn:H70;
              [ | destruct (Js.ge sc 60) eqn:H60;
                  [ | destruct (Js.ge sc 50) eqn:H50 ]]]];
      repeat match goal with
             | H : Js.ge _ _ = true |- _ => apply JsFacts.ge_true in H
             | H : Js.ge _ _ = false |- _ => apply JsFacts.ge_false in H
             end;
      eexists; (split; [reflexivity | ]);
      (split; [cbn; tauto | ]); (split; [reflexivity | ]);
      cbn; repeat split; intros; try reflexivity; lra.
  - intros a Ha. unfold article_badge. rewrite Ha. reflexivity.
Qed.

End HopeLevelFacts.

(** ** The article card: sharing *)

Module ShareFacts.
Import Async ArticleCard.

(** What [copyToClipboard] does, by the state of the clipboard. *)
Lemma copyToClipboard_run nav a t0 :
  copyToClipboard nav a t0 =
  (Return tt,
   {| showToast := true;
      toastMessage := match clipboard nav with
                      | Some (Fulfilled _) => "Link copied!"%string
                      | _ => "Failed to copy"%string
                      end |},
   copy_calls nav a).
Proof.
  unfold copyToClipboard, await_writeText, copy_calls, try_catch, bind, emit,
    await, throw, modify.
  destruct (clipboard nav) as [[[] | e] | ]; cbn; reflexivity.
Qed.



End ShareFacts.

(** ** The article card: [cleanSummary] *)

Module CleanSummaryFacts.
Import Regex ArticleCard.

(** *** The scan of [replace] *)

Section Scan.
Context {char : Type} (r : regex char).

(** Dropping the rest of a match and scanning on is scanning the suffix. *)
Lemma remove_matches_skipn k s :
  remove_matches r k s = remove_matches r 0 (skipn k s).
Proof.
  revert k. induction s as [ | c s IH]; intros [ | k]; cbn [remove_matches skipn];
    try reflexivity.
  apply IH.
Qed.

(** The scan keeps characters of the input only. *)
Lemma remove_matches_incl k s x : In x (remove_matches r k s) -> In x s.
Proof.
  revert k. induction s as [ | c s IH]; intros k; cbn [remove_matches];
    [tauto | ].
  destruct k as [ | k].
  - destruct (match_here r (c :: s)) as [[ | n] | ]; cbn [In]; intros H.
    + destruct H as [H | H]; [left; exact H | right; apply (IH _ H)].
    + right. apply (IH _ H).
    + destruct H as [H | H]; [left; exact H | right; apply (IH _ H)].
  - intros H. right. apply (IH _ H).
Qed.

End Scan.

(** *** The pattern [<[^>]*>] *)

Lemma match_tag_cons c s :
  match_here tag_pattern (c :: s) =
  if Ascii.eqb lt_sign c then option_map S (match_here tail_pattern s) else None.
Proof. reflexivity. Qed.

Lemma match_tag_nil : match_here tag_pattern [] = None.
Proof. reflexivity. Qed.

Lemma match_tail_cons c s :
  match_here tail_pattern (c :: s) =
  if negb (Ascii.eqb c gt_sign) then
    match match_here tail_pattern s with
    | Some n => Some (S n)
    | None => None
    end
  else Some 1%nat.
Proof.
  change (match_here tail_pattern (c :: s)) with
    (if negb (Ascii.eqb c gt_sign) then
       match match_here tail_pattern s with
       | Some n => Some (S n)
       | None => if Ascii.eqb gt_sign c then Some 1%nat else None
       end
     else if Ascii.eqb gt_sign c then Some 1%nat else None).
  rewrite (Ascii.eqb_sym gt_sign c).
  destruct (Ascii.eqb c gt_sign); reflexivity.
Qed.

(** The rest of the pattern fails exactly when no [">"] is left. *)
Lemma match_tail_none s : match_here tail_pattern s = None -> ~ In gt_sign s.
Proof.
  induction s as [ | c s IH]; [intros _ []| ].
  rewrite match_tail_cons.
  destruct (Ascii.eqb_spec c gt_sign) as [-> | Hne]; cbn [negb]; [discriminate | ].
  destruct (match_here tail_pattern s); [discriminate | ].
  intros _ [H | H]; [congruence | exact (IH eq_refl H)].
Qed.

(** When the rest of the pattern matches, a [">"] follows. *)
Lemma match_tail_some s n :
  match_here tail_pattern s = Some n ->
  exists inside after, s = inside ++ gt_sign :: after /\ ~ In gt_sign inside
                       /\ n = S (List.length inside).
Proof.
  revert n. induction s as [ | c s IH]; intros n; [discriminate | ].
  rewrite match_tail_cons.
  destruct (Ascii.eqb_spec c gt_sign) as [-> | Hne]; cbn [negb].
  - intros [= <-]. exists [], s. repeat split. intros [].
  - destruct (match_here tail_pattern s) as [m | ]; [ | discriminate].
    intros [= <-]. destruct (IH m eq_refl) as (inside & after & -> & Hin & ->).
    exists (c :: inside), after. repeat split.
    intros [H | H]; [congruence | exact (Hin H)].
Qed.

(** A match of the whole pattern is a ["<"], a stretch without [">"], and a
    [">"]; it is never empty. *)
Lemma match_tag_some s n :
  match_here tag_pattern s = Some n ->
  exists inside after,
    s = lt_sign :: inside ++ gt_sign :: after /\ ~ In gt_sign inside
    /\ n = S (S (List.length inside)).
Proof.
  destruct s as [ | c s]; [discriminate | ].
  rewrite match_tag_cons.
  destruct (Ascii.eqb_spec lt_sign c) as [<- | Hne]; [ | discriminate].
  destruct (match_here tail_pattern s) as [m | ] eqn:E; [ | discriminate].
  intros [= <-]. destruct (match_tail_some s m E) as (inside & after & Hs & Hin & Hm).
  exists inside, after. rewrite Hs, Hm. repeat split. exact Hin.
Qed.

(** *** No tag survives *)

Lemma contains_tag_nil : ~ contains_tag [].
Proof.
  intros (before & inside & after & H).
  destruct before; discriminate H.
Qed.

Lemma contains_tag_has_gt l : contains_tag l -> In gt_sign l.
Proof.
  intros (before & inside & after & ->).
  apply in_or_app. right. right. apply in_or_app. right. left. reflexivity.
Qed.

Lemma contains_tag_cons_other c l :
  c <> lt_sign -> contains_tag (c :: l) -> contains_tag l.
Proof.
  intros Hc (before & inside & after & H).
  destruct before as [ | b before]; cbn in H.
  - injection H as H _. contradiction.
  - injection H as _ H. exists before, inside, after. exact H.
Qed.

Lemma contains_tag_firstn k l : contains_tag (firstn k l) -> contains_tag l.
Proof.
  intros (before & inside & after & H).
  exists before, inside, (after ++ skipn k l)%list.
  rewrite <- (firstn_skipn k l) at 1. rewrite H.
  repeat (rewrite <- app_assoc; cbn [app]). reflexivity.
Qed.

Lemma strip_has_no_tag_bounded n :
  forall s, (List.length s <= n)%nat ->
            ~ contains_tag (replace_all_with_empty tag_pattern s).
Proof.
  unfold replace_all_with_empty.
  induction n as [ | n IH]; intros s Hlen.
  - destruct s; [apply contains_tag_nil | cbn in Hlen; lia].
  - destruct s as [ | c s]; [apply contains_tag_nil | ].
    cbn [remove_matches]. cbn [List.length] in Hlen.
    destruct (match_here tag_pattern (c :: s)) as [[ | m] | ] eqn:E.
    + apply match_tag_some in E. destruct E as (x & y & _ & _ & E). discriminate E.
    + rewrite remove_matches_skipn. apply IH.
      rewrite length_skipn. lia.
    + rewrite match_tag_cons in E.
      destruct (Ascii.eqb_spec lt_sign c) as [<- | Hne].
      * destruct (match_here tail_pattern s) eqn:Et; [discriminate E | ].
        intros Htag. apply contains_tag_has_gt in Htag.
        destruct Htag as [Habs | Hin]; [discriminate Habs | ].
        apply remove_matches_incl in Hin.
        exact (match_tail_none s Et Hin).
      * intros Htag. apply contains_tag_cons_other in Htag; [ | congruence].
        revert Htag. apply IH. lia.
Qed.

Lemma strip_has_no_tag s :
  ~ contains_tag (replace_all_with_empty tag_pattern s).
Proof. apply (strip_has_no_tag_bounded (List.length s)). lia. Qed.

(** Where nothing of the form ["<" ... ">"] is left, the pattern matches
    nowhere. *)
Lemma no_tag_no_match l i :
  ~ contains_tag l -> match_here tag_pattern (skipn i l) = None.
Proof.
  intros Hno. destruct (match_here tag_pattern (skipn i l)) as [n | ] eqn:E;
    [ | reflexivity].
  exfalso. apply Hno. apply match_tag_some in E.
  destruct E as (inside & after & E & _ & _).
  exists (firstn i l), inside, after.
  rewrite <- E. symmetry. apply firstn_skipn.
Qed.

(** *** [substring] and [||] *)

Lemma substring_from_start m s :
  list_ascii_of_string (String.substring 0 m s) = firstn m (list_ascii_of_string s).
Proof.
  revert s. induction m as [ | m IH]; intros s.
  - destruct s; reflexivity.
  - destruct s as [ | c s]; cbn; [reflexivity | ]. rewrite IH. reflexivity.
Qed.

Lemma string_length_as_list s :
  String.length s = List.length (list_ascii_of_string s).
Proof. induction s as [ | c s IH]; cbn; [reflexivity | rewrite IH; reflexivity]. Qed.

Lemma or_empty_some s : or_empty (Some s) = s.
Proof.
  unfold or_empty. destruct (String.eqb_spec s EmptyString) as [-> | _]; reflexivity.
Qed.

Lemma cleanSummary_chars (a : Data.Article) :
  list_ascii_of_string (cleanSummary a) =
  match Data.summary a with
  | Some s =>
      firstn 150 (replace_all_with_empty tag_pattern (list_ascii_of_string s))
  | None => []
  end.
Proof.
  unfold cleanSummary. destruct (Data.summary a) as [s | ]; cbn [option_map].
  - rewrite or_empty_some, substring_from_start. unfold strip_tags.
    rewrite list_ascii_of_string_of_list_ascii. reflexivity.
  - reflexivity.
Qed.

(** C9: the displayed summary of every article contains no markup tag: no
    ["<"] followed, at any distance, by a [">"] is left in it, so the pattern
    [<[^>]*>] matches nowhere in it; it is at most 150 characters long; and a
    missing or [null] summary gives the empty string. *)
Theorem cleanSummary_has_no_tags_and_is_short (a : Data.Article) :
  ~ contains_tag (list_ascii_of_string (cleanSummary a)) /\
  (forall i, match_here tag_pattern
               (skipn i (list_ascii_of_string (cleanSummary a))) = None) /\
  (String.length (cleanSummary a) <= 150)%nat /\
  (Data.summary a = None -> cleanSummary a = EmptyString).
Proof.
  assert (Hno : ~ contains_tag (list_ascii_of_string (cleanSummary a))).
  { rewrite cleanSummary_chars. destruct (Data.summary a) as [s | ].
    - intros H. apply contains_tag_firstn in H. revert H. apply strip_has_no_tag.
    - apply contains_tag_nil. }
  split; [exact Hno | ]. split; [ | split].
  - intros i. apply no_tag_no_match, Hno.
  - rewrite string_length_as_list, cleanSummary_chars.
    destruct (Data.summary a); [apply firstn_le_length | cbn; lia].
  - intros H. unfold cleanSummary. rewrite H. reflexivity.
Qed.

Lemma cleanSummary_has_no_tags_and_is_short_witness :
  cleanSummary
    {| Data.id := "a2"; Data.headline := "Wetland restored";
       Data.summary := None; Data.image_url := None;
       Data.source_url := "https://example.org/wetland";
       Data.source_name := "Example"; Data.category := Some "environment"%string;
       Data.hopefulness_score := None; Data.published_at := "2024-05-02" |}
  = EmptyString.
Proof.
  apply cleanSummary_has_no_tags_and_is_short. reflexivity.
Defined.

Example strip_tags_markup :
  strip_tags "<p>Coral <b>cover</b> is up.</p>" = "Coral cover is up."%string.
Proof. reflexivity. Qed.

Example strip_tags_nested :
  strip_tags "<scr<script>ipt>alert < now" = "ipt>alert < now"%string.
Proof. reflexivity. Qed.

End CleanSummaryFacts.

(** * Further properties of the components *)

(** ** The pull gesture and its indicator *)

Module PullIndicatorFacts.
Import PullToRefresh PullIndicator PullToRefreshFacts.

Lemma pullProgress_full_iff g :
  Js.ge (pullProgress g) 1 = Js.ge (pullDistance g) PULL_THRESHOLD.
Proof.
  unfold pullProgress, Js.Math_min, PULL_THRESHOLD.
  destruct (Js.ge (pullDistance g) 80) eqn:E.
  - apply JsFacts.ge_true in E. apply JsFacts.ge_true.
    destruct (Q.min_spec (pullDistance g / 80) 1) as [[Hlt Heq] | [Hle Heq]];
      rewrite Heq; [ | lra].
    apply Qle_shift_div_l; lra.
  - apply JsFacts.ge_false in E. apply JsFacts.ge_false.
    apply Qle_lt_trans with (pullDistance g / 80); [apply Q.le_min_l | ].
    apply Qlt_shift_div_r; lra.
Qed.

(** X1: in every state the event loop can reach, the progress shown by the
    indicator lies between 0 and 1, so the icon is rotated by between 0 and
    180 degrees; the progress is full exactly from a pull distance of 80
    on. *)
Theorem pull_progress_in_unit_range (s : System) :
  reachable s ->
  0 <= pullProgress (gesture s) <= 1 /\
  0 <= icon_rotation (gesture s) <= 180 /\
  (pullProgress (gesture s) == 1 <-> PULL_THRESHOLD <= pullDistance (gesture s)).
Proof.
  intros Hs. destruct (reachable_inv s Hs) as [[Hlo Hhi] _ _].
  assert (Hdiv : 0 <= pullDistance (gesture s) / PULL_THRESHOLD).
  { unfold PULL_THRESHOLD. apply Qle_shift_div_l; lra. }
  assert (Hrange : 0 <= pullProgress (gesture s) <= 1).
  { unfold pullProgress, Js.Math_min.
    destruct (Q.min_spec (pullDistance (gesture s) / PULL_THRESHOLD) 1)
      as [[Hlt Heq] | [Hle Heq]]; rewrite Heq; split; lra. }
  split; [exact Hrange | ]. split.
  - unfold icon_rotation. lra.
  - pose proof (pullProgress_full_iff (gesture s)) as Hfull.
    split; intros H.
    + apply JsFacts.ge_true. rewrite <- Hfull. apply JsFacts.ge_true. lra.
    + apply JsFacts.ge_true in H. rewrite <- Hfull in H.
      apply JsFacts.ge_true in H. lra.
Qed.

Lemma pull_progress_in_unit_range_witness :
  let s := fst (run [TouchStart 0 100; TouchMove 0 900] boot) in
  0 <= pullProgress (gesture s) <= 1 /\ 0 <= icon_rotation (gesture s) <= 180.
Proof.
  intros s.
  assert (Hs : reachable s) by apply reachable_run, reach_boot.
  destruct (pull_progress_in_unit_range s Hs) as (H1 & H2 & _).
  split; [exact H1 | exact H2].
Defined.

(** X2: the indicator tells the truth about a release: in every reachable
    state it reads "Release to refresh" exactly when a touch-end at that
    moment calls [fetchArticles(true)], and it reads "Refreshing..." exactly
    while a refresh fetch is in flight. *)
Theorem pull_text_announces_release (s : System) :
  reachable s ->
  (pullText (gesture s) = "Release to refresh"%string <->
   fetch_calls (snd (step TouchEnd s)) = [true]) /\
  (pullText (gesture s) = "Refreshing..."%string <-> parked s = 1%nat).
Proof.
  intros Hs. pose proof (reachable_inv s Hs) as Hinv.
  rewrite (touch_end_fetch s Hinv). destruct Hinv as [_ Href Hq].
  unfold pullText. rewrite pullProgress_full_iff.
  destruct (isRefreshing (gesture s)).
  - destruct (Href eq_refl) as (_ & Hpd & Hn). rewrite Hpd, Hn.
    split; split; intros H; try reflexivity; discriminate H.
  - destruct (Hq eq_refl) as [Hn _]. rewrite Hn.
    destruct (Js.ge (pullDistance (gesture s)) PULL_THRESHOLD);
      split; split; intros H; try reflexivity; discriminate H.
Qed.

Lemma pull_text_announces_release_witness :
  let s := fst (run [TouchStart 0 100; TouchMove 0 300] boot) in
  pullText (gesture s) = "Release to refresh"%string.
Proof.
  intros s.
  assert (Hs : reachable s) by apply reachable_run, reach_boot.
  apply (proj1 (pull_text_announces_release s Hs)). reflexivity.
Defined.

(** X3: the pull distance is not accumulated over moves: a touch-end calls
    [fetchArticles(true)] exactly when the last touch-move of the pull was at
    scroll offset 0 and at least 160 below the recorded start Y (whatever the
    moves before it did), and makes no fetch otherwise. *)
Theorem refresh_needs_160_of_travel (s : System) (scrollY clientY : Q) :
  reachable s ->
  isPulling (gesture s) = true ->
  let calls := fetch_calls (snd (run [TouchMove scrollY clientY; TouchEnd] s)) in
  (scrollY == 0 /\ 160 <= clientY - startY (gesture s) -> calls = [true]) /\
  (~ scrollY == 0 \/ clientY - startY (gesture s) < 160 -> calls = []).
Proof.
  intros Hs Hpull calls.
  destruct (pulling_not_refreshing s Hs Hpull) as [Hnr Hpark].
  destruct s as [[pd pulling refreshing y0] n]. cbn in *.
  subst pulling refreshing n. subst calls.
  cbn. unfold onTouchMove; cbn.
  destruct (Js.gt (clientY - y0) 0) eqn:Hd;
    destruct (Js.strict_eq scrollY 0) eqn:Hy; cbn; unfold onTouchEnd; cbn.
  - apply JsFacts.gt_true in Hd. apply JsFacts.strict_eq_true in Hy.
    unfold Js.Math_min, MAX_PULL, PULL_THRESHOLD.
    destruct (Js.ge (Qmin ((clientY - y0) * (1 # 2)) 120) 80) eqn:Hge; cbn.
    + split; [reflexivity | ]. apply JsFacts.ge_true in Hge.
      intros [Hoff | Hshort]; [contradiction | ].
      exfalso. pose proof (Q.le_min_l ((clientY - y0) * (1 # 2)) 120). lra.
    + split; [ | reflexivity]. apply JsFacts.ge_false in Hge.
      intros [_ Hfar]. exfalso.
      destruct (Q.min_spec ((clientY - y0) * (1 # 2)) 120) as [[_ Heq] | [_ Heq]];
        rewrite Heq in Hge; lra.
  - apply JsFacts.strict_eq_false in Hy.
    split; [intros [H0 _]; contradiction | reflexivity].
  - apply JsFacts.gt_false in Hd.
    split; [intros [_ Hfar]; lra | reflexivity].
  - apply JsFacts.gt_false in Hd.
    split; [intros [_ Hfar]; lra | reflexivity].
Qed.

Lemma refresh_needs_160_of_travel_witness :
  let s := fst (run [TouchStart 0 100; TouchMove 0 400] boot) in
  fetch_calls (snd (run [TouchMove 0 259; TouchEnd] s)) = [] /\
  fetch_calls (snd (run [TouchMove 0 260; TouchEnd] s)) = [true].
Proof.
  intros s.
  assert (Hs : reachable s) by apply reachable_run, reach_boot.
  split.
  - apply (proj2 (refresh_needs_160_of_travel s 0 259 Hs eq_refl)).
    right. vm_compute. reflexivity.
  - apply (proj1 (refresh_needs_160_of_travel s 0 260 Hs eq_refl)).
    split; [reflexivity | vm_compute; discriminate].
Defined.

(** X4: a tap never refreshes: when no pull is under way, a touch-start
    followed at once by a touch-end has no effect on the outside world, calls
    no fetch, and leaves the pull distance, the refreshing flag and the
    fetches in flight as they were, with no pull under way. *)
Theorem tap_does_nothing (s : System) (scrollY clientY : Q) :
  reachable s ->
  isPulling (gesture s) = false ->
  let s' := fst (run [TouchStart scrollY clientY; TouchEnd] s) in
  snd (run [TouchStart scrollY clientY; TouchEnd] s) = [] /\
  isPulling (gesture s') = false /\
  pullDistance (gesture s') = pullDistance (gesture s) /\
  isRefreshing (gesture s') = isRefreshing (gesture s) /\
  parked s' = parked s.
Proof.
  intros Hs Hidle s'. destruct (reachable_inv s Hs) as [_ Href Hq].
  destruct s as [[pd pulling refreshing y0] n]. cbn in *. subst pulling s'.
  cbn. unfold onTouchStart; cbn.
  destruct refreshing; cbn.
  - unfold onTouchEnd; cbn. repeat split.
  - destruct (Hq eq_refl) as [_ Hpd]. rewrite (Hpd eq_refl).
    destruct (Js.gt scrollY 0); cbn; unfold onTouchEnd; cbn; repeat split.
Qed.

Lemma tap_does_nothing_witness :
  snd (run [TouchStart 0 240; TouchEnd] boot) = [] /\
  pullDistance (gesture (fst (run [TouchStart 0 240; TouchEnd] boot))) = 0.
Proof.
  destruct (tap_does_nothing boot 0 240 reach_boot eq_refl) as (H1 & _ & H2 & _).
  split; [exact H1 | exact H2].
Defined.

(** X5: while a refresh fetch is in flight the touch handlers are inert:
    every touch-start, touch-move and touch-end leaves the whole state
    unchanged and has no effect; only the settlement of the fetch ends the
    refresh, scrolling to the top and returning to the idle state with pull
    distance 0 and nothing in flight. *)
Theorem touches_inert_during_refresh (s : System) :
  reachable s ->
  isRefreshing (gesture s) = true ->
  (forall e, e <> FetchSettled -> step e s = (s, [])) /\
  step FetchSettled s =
    ({| gesture := {| pullDistance := 0; isPulling := false;
                      isRefreshing := false; startY := startY (gesture s) |};
        parked := 0 |}, [ScrollToTop]).
Proof.
  intros Hs Href. destruct (reachable_inv s Hs) as [_ Hr _].
  destruct (Hr Href) as (Hp & _ & Hn).
  destruct s as [[pd pulling refreshing y0] n]. cbn in *. subst.
  split; [ | reflexivity].
  intros [sy cy | sy cy | | ] He; try reflexivity. contradiction.
Qed.

Lemma touches_inert_during_refresh_witness :
  let s := fst (run [TouchStart 0 100; TouchMove 0 300; TouchEnd] boot) in
  step (TouchMove 0 500) s = (s, []) /\ step TouchEnd s = (s, []).
Proof.
  intros s.
  assert (Hs : reachable s) by apply reachable_run, reach_boot.
  split; apply (proj1 (touches_inert_during_refresh s Hs eq_refl)); discriminate.
Defined.

End PullIndicatorFacts.

(** ** The feed view *)

Module FeedViewFacts.
Import LoadMore FeedView.

(** X6: the feed is never blank: whatever the refs hold, the template shows
    the skeleton, the article grid, the empty-state message or the error
    banner.  The empty-state message and the error banner never appear
    together, and the results count and the footer (load-more button,
    spinner or end mark) appear only with the grid. *)
Theorem feed_view_never_blank (f : FeedState) :
  (render_main f = Blank -> shows_error_banner f = true) /\
  (render_main f = EmptyState -> shows_error_banner f = false) /\
  (shows_results_count f = true -> render_main f = Grid) /\
  (render_footer f <> NoFooter <-> render_main f = Grid).
Proof.
  unfold render_main, shows_error_banner, shows_results_count, render_footer.
  destruct (articles f) as [ | a l]; cbn [List.length Nat.ltb Nat.eqb Nat.leb];
    destruct (loading f), (truthy (error f)), (hasMore f); cbn;
    repeat split; intros; try reflexivity; try discriminate; try congruence.
Qed.

Lemma feed_view_never_blank_witness :
  let f := {| articles := []; page := 1; hasMore := false; total := 0;
              loading := false; error := Some "Failed to load articles"%string |} in
  render_main f = Blank /\ shows_error_banner f = true.
Proof.
  intros f. split; [reflexivity | ].
  apply (proj1 (feed_view_never_blank f)). reflexivity.
Defined.

End FeedViewFacts.

(** ** The touch listeners *)

Module ListenersFacts.
Import Listeners.

Lemma foreign_not_registered type l reg :
  foreign_only reg -> own l = true ->
  existsb (entry_eqb (type, l)) reg = false.
Proof.
  intros Hreg Hl. induction reg as [ | [t x] reg IH]; [reflexivity | ].
  cbn [existsb]. rewrite IH by (intros e He; apply Hreg; right; exact He).
  assert (Hx : own x = false) by (apply (Hreg (t, x)); left; reflexivity).
  unfold entry_eqb; cbn. destruct l, x; try discriminate; cbn;
    rewrite ?andb_false_r; reflexivity.
Qed.

Lemma foreign_survive_removal type l reg :
  foreign_only reg -> own l = true ->
  filter (fun e => negb (entry_eqb (type, l) e)) reg = reg.
Proof.
  intros Hreg Hl. induction reg as [ | [t x] reg IH]; [reflexivity | ].
  cbn [filter]. rewrite IH by (intros e He; apply Hreg; right; exact He).
  assert (Hx : own x = false) by (apply (Hreg (t, x)); left; reflexivity).
  unfold entry_eqb; cbn. destruct l, x; try discriminate; cbn;
    rewrite ?andb_false_r; reflexivity.
Qed.

(** X7: the component leaks no listener.  On a [document] that holds none of
    its handlers, mounting on a touch device registers exactly the three
    handlers (touchstart, touchmove, touchend, after the listeners already
    there), mounting elsewhere registers nothing, and unmounting after
    mounting gives back the listener list as it was. *)
Theorem mount_unmount_restores_listeners (d : Device) (w : World) :
  foreign_only (registered w) ->
  let w1 := fst (onMounted d w) in
  registered (onUnmounted w1) = registered w /\
  (isTouchDevice w1 = true ->
     registered w1 =
       (registered w ++ [("touchstart"%string, OnTouchStart);
                         ("touchmove"%string, OnTouchMove);
                         ("touchend"%string, OnTouchEnd)])%list) /\
  (isTouchDevice w1 = false -> registered w1 = registered w).
Proof.
  intros Hreg w1. subst w1. unfold onMounted, onUnmounted.
  cbn [fst registered isTouchDevice feed_length].
  destruct (ontouchstart_in_window d || Js.gt (maxTouchPoints d) 0);
    cbn [fst registered isTouchDevice feed_length].
  - set (reg := registered w) in *.
    set (a := ("touchstart"%string, OnTouchStart)).
    set (b := ("touchmove"%string, OnTouchMove)).
    set (c := ("touchend"%string, OnTouchEnd)).
    assert (Ea : addEventListener "touchstart" OnTouchStart reg = (reg ++ [a])%list).
    { unfold addEventListener.
      rewrite (foreign_not_registered _ OnTouchStart _ Hreg eq_refl). reflexivity. }
    assert (Eb : addEventListener "touchmove" OnTouchMove (reg ++ [a])
                 = (reg ++ [a; b])%list).
    { unfold addEventListener.
      rewrite existsb_app, (foreign_not_registered _ OnTouchMove _ Hreg eq_refl).
      cbn. rewrite <- app_assoc. reflexivity. }
    assert (Ec : addEventListener "touchend" OnTouchEnd (reg ++ [a; b])
                 = (reg ++ [a; b; c])%list).
    { unfold addEventListener.
      rewrite existsb_app, (foreign_not_registered _ OnTouchEnd _ Hreg eq_refl).
      cbn. rewrite <- app_assoc. reflexivity. }
    rewrite Ea, Eb, Ec.
    split; [ | split; [reflexivity | discriminate]].
    unfold removeEventListener. rewrite filter_app.
    rewrite (foreign_survive_removal _ OnTouchStart _ Hreg eq_refl).
    cbn [filter a b c entry_eqb fst snd listener_eqb String.eqb Ascii.eqb
         Bool.eqb andb negb].
    rewrite filter_app.
    rewrite (foreign_survive_removal _ OnTouchMove _ Hreg eq_refl).
    cbn [filter a b c entry_eqb fst snd listener_eqb String.eqb Ascii.eqb
         Bool.eqb andb negb].
    rewrite filter_app.
    rewrite (foreign_survive_removal _ OnTouchEnd _ Hreg eq_refl).
    cbn [filter a b c entry_eqb fst snd listener_eqb String.eqb Ascii.eqb
         Bool.eqb andb negb].
    apply app_nil_r.
  - split; [reflexivity | split; [discriminate | reflexivity]].
Qed.

Lemma mount_unmount_restores_listeners_witness :
  let d := {| ontouchstart_in_window := false; maxTouchPoints := 5 |} in
  let w := {| isTouchDevice := false;
              registered := [("scroll"%string, Foreign 1);
                             ("touchstart"%string, Foreign 2)];
              feed_length := 0 |} in
  registered (onUnmounted (fst (onMounted d w))) = registered w.
Proof.
  intros d w.
  apply (mount_unmount_restores_listeners d w).
  intros e [<- | [<- | []]]; reflexivity.
Defined.

End ListenersFacts.

(** ** Dark mode *)

Module DarkModeFacts.
Import DarkMode.
Local Open Scope string_scope.

Lemma contains_add c x l :
  contains c (add x l) = String.eqb c x || contains c l.
Proof.
  unfold add. destruct (contains x l) eqn:E.
  - destruct (String.eqb_spec c x) as [-> | _]; [rewrite E | ]; reflexivity.
  - unfold contains. rewrite existsb_app. cbn.
    rewrite orb_false_r. apply orb_comm.
Qed.

Lemma contains_remove c x l :
  contains c (remove x l) = negb (String.eqb c x) && contains c l.
Proof.
  unfold remove, contains. induction l as [ | y l IH]; cbn.
  - rewrite andb_false_r. reflexivity.
  - destruct (String.eqb_spec x y) as [-> | Hxy]; cbn; rewrite IH.
    + destruct (String.eqb_spec c y); reflexivity.
    + destruct (String.eqb_spec c y) as [-> | Hcy]; cbn.
      * destruct (String.eqb_spec y x) as [-> | _]; [contradiction | reflexivity].
      * reflexivity.
Qed.

(** X8: a toggle keeps the page and the stored preference in step with the
    flag: afterwards the flag is flipped, the root element carries the class
    [dark] exactly when the flag is set, and [localStorage] holds ["true"] or
    ["false"] accordingly under [darkMode]; no other class and no other key
    is touched.  The inline toggle of the header does exactly the same as the
    toggle of [useDarkMode.js]. *)
Theorem toggle_keeps_page_in_step (isDark : bool) (b : Browser) :
  fst (toggle isDark b) = negb isDark /\
  contains "dark" (classes (snd (toggle isDark b))) = negb isDark /\
  getItem "darkMode" (localStorage (snd (toggle isDark b))) =
    Some (if negb isDark then "true" else "false") /\
  (forall c, c <> "dark" ->
     contains c (classes (snd (toggle isDark b))) = contains c (classes b)) /\
  (forall k, k <> "darkMode" ->
     getItem k (localStorage (snd (toggle isDark b))) = getItem k (localStorage b)) /\
  AppHeader_toggle isDark b = toggle isDark b.
Proof.
  unfold toggle, apply. cbn [fst snd classes localStorage].
  split; [reflexivity | ]. split; [ | split; [reflexivity | split; [ | split]]].
  - destruct isDark; cbn [negb].
    + rewrite contains_remove. reflexivity.
    + rewrite contains_add. reflexivity.
  - intros c Hc. apply String.eqb_neq in Hc.
    destruct isDark; cbn [negb].
    + rewrite contains_remove, Hc. reflexivity.
    + rewrite contains_add, Hc. reflexivity.
  - intros k Hk. apply String.eqb_neq in Hk.
    unfold getItem, setItem. rewrite Hk. reflexivity.
  - reflexivity.
Qed.

(** X9: the preference survives a reload: whatever the system colour scheme
    is, [getInitialDarkMode] on the browser left by a toggle returns the flag
    the toggle set. *)
Theorem toggled_preference_is_restored (isDark : bool) (b : Browser) :
  getInitialDarkMode (Some (snd (toggle isDark b))) = fst (toggle isDark b).
Proof.
  unfold getInitialDarkMode, toggle, apply, getItem, setItem. cbn.
  destruct isDark; reflexivity.
Qed.

(** X10: the header never disagrees with the page: after it is mounted and
    its button clicked any number of times, its flag equals the presence of
    the class [dark] on the root element, which is the presence at mount
    time flipped once per click; and once the button has been clicked,
    [getInitialDarkMode] returns that flag too. *)
Theorem header_flag_matches_page (n : nat) (b : Browser) :
  let '(d, b') := AppHeader_clicks n b in
  d = contains "dark" (classes b') /\
  d = xorb (contains "dark" (classes b)) (Nat.odd n) /\
  ((0 < n)%nat -> getInitialDarkMode (Some b') = d).
Proof.
  induction n as [ | n IH].
  - cbn. unfold AppHeader_sync. rewrite xorb_false_r.
    split; [reflexivity | split; [reflexivity | lia]].
  - cbn [AppHeader_clicks]. destruct (AppHeader_clicks n b) as [d b'].
    destruct IH as (Hd & Hx & _).
    unfold AppHeader_toggle, getInitialDarkMode, getItem, setItem.
    cbn [classes localStorage String.eqb Ascii.eqb Bool.eqb].
    split; [ | split].
    + destruct d; cbn [negb];
        [rewrite contains_remove | rewrite contains_add]; reflexivity.
    + rewrite Hx, Nat.odd_succ, <- Nat.negb_odd.
      destruct (contains "dark" (classes b)), (Nat.odd n); reflexivity.
    + intros _. destruct d; reflexivity.
Qed.

End DarkModeFacts.

(** ** The bar of the hope-level badge *)

Module HopeBarFacts.
Import HopeLevel HopeBar.

Ltac order_facts :=
  repeat match goal with
         | H : Js.ge _ _ = true |- _ => apply JsFacts.ge_true in H
         | H : Js.ge _ _ = false |- _ => apply JsFacts.ge_false in H
         end.

Ltac by_tier sc :=
  destruct (Js.ge sc 90) eqn:?;
    [ | destruct (Js.ge sc 80) eqn:?;
        [ | destruct (Js.ge sc 70) eqn:?;
            [ | destruct (Js.ge sc 60) eqn:?;
                [ | destruct (Js.ge sc 50) eqn:? ]]]].

(** X11: the badge is monotone in the score: a higher score never gets a
    lower tier nor a narrower bar; the bar of a scored article is between 20
    and 100 percent wide, and full exactly from a score of 90 on. *)
Theorem hope_bar_monotone (a b : Q) :
  a <= b ->
  (tier_of (Some a) <= tier_of (Some b))%nat /\
  barWidth (Some a) <= barWidth (Some b) /\
  20 <= barWidth (Some a) <= 100 /\
  (barWidth (Some a) == 100 <-> 90 <= a).
Proof.
  intros Hab. unfold tier_of, barWidth, level, levels. cbn [find min].
  by_tier a; by_tier b; order_facts;
    cbn [nth_error List.length Nat.sub tier]; try (exfalso; lra);
    (split; [cbn; lia | ]); (split; [vm_compute; discriminate | ]);
    (split; [split; vm_compute; discriminate | ]);
    (split; [intros H; try (vm_compute in H; discriminate H); lra
            | intros H; try reflexivity; exfalso; lra]).
Qed.

Lemma hope_bar_monotone_witness :
  barWidth (Some 64) <= barWidth (Some (171 # 2)) /\ barWidth (Some 93) == 100.
Proof.
  split.
  - apply (hope_bar_monotone 64 (171 # 2)). vm_compute. discriminate.
  - apply (hope_bar_monotone 93 93); vm_compute; discriminate.
Defined.

End HopeBarFacts.

(** ** Relative time *)

Module RelativeTimeFacts.
Import RelativeTime.
Local Open Scope Z_scope.

(** X12: the label of a parsable date depends on the elapsed milliseconds
    only, with the thresholds one minute, one hour, one day and one week:
    ["now"] below 60000 (dates in the future included), then whole minutes (1
    to 59), whole hours (1 to 23), whole days (1 to 6), and the calendar date
    from 604800000 on.  The counts are the elapsed time divided by the unit,
    rounded down. *)
Theorem relative_time_by_elapsed (date now : Z) :
  let elapsed := now - date in
  (elapsed < 60000 -> formatRelativeTime (Time date) now = Now) /\
  (60000 <= elapsed < 3600000 ->
     formatRelativeTime (Time date) now = Minutes (elapsed / 60000) /\
     1 <= elapsed / 60000 <= 59) /\
  (3600000 <= elapsed < 86400000 ->
     formatRelativeTime (Time date) now = Hours (elapsed / 3600000) /\
     1 <= elapsed / 3600000 <= 23) /\
  (86400000 <= elapsed < 604800000 ->
     formatRelativeTime (Time date) now = Days (elapsed / 86400000) /\
     1 <= elapsed / 86400000 <= 6) /\
  (604800000 <= elapsed -> formatRelativeTime (Time date) now = CalendarDate).
Proof.
  intros elapsed. unfold formatRelativeTime. fold elapsed.
  assert (Hm : elapsed / 1000 / 60 = elapsed / 60000)
    by (rewrite Z.div_div by lia; reflexivity).
  assert (Hh : elapsed / 1000 / 60 / 60 = elapsed / 3600000)
    by (rewrite Hm, Z.div_div by lia; reflexivity).
  assert (Hd : elapsed / 1000 / 60 / 60 / 24 = elapsed / 86400000)
    by (rewrite Hh, Z.div_div by lia; reflexivity).
  rewrite Hd, Hh, Hm.
  pose proof (Z.div_mod elapsed 1000 ltac:(lia)) as E1.
  pose proof (Z.mod_pos_bound elapsed 1000 ltac:(lia)) as B1.
  pose proof (Z.div_mod elapsed 60000 ltac:(lia)) as E2.
  pose proof (Z.mod_pos_bound elapsed 60000 ltac:(lia)) as B2.
  pose proof (Z.div_mod elapsed 3600000 ltac:(lia)) as E3.
  pose proof (Z.mod_pos_bound elapsed 3600000 ltac:(lia)) as B3.
  pose proof (Z.div_mod elapsed 86400000 ltac:(lia)) as E4.
  pose proof (Z.mod_pos_bound elapsed 86400000 ltac:(lia)) as B4.
  destruct (Z.ltb_spec (elapsed / 1000) 60);
    destruct (Z.ltb_spec (elapsed / 60000) 60);
    destruct (Z.ltb_spec (elapsed / 3600000) 24);
    destruct (Z.ltb_spec (elapsed / 86400000) 7);
    repeat split; intros; try reflexivity; lia.
Qed.

Lemma relative_time_by_elapsed_witness :
  formatRelativeTime (Time 1700000000000) 1700000000000 = Now /\
  formatRelativeTime (Time 1700000000000) 1700007199999 = Hours 1.
Proof.
  split.
  - apply (relative_time_by_elapsed 1700000000000 1700000000000). reflexivity.
  - destruct (relative_time_by_elapsed 1700000000000 1700007199999)
      as (_ & _ & Hhours & _).
    apply Hhours. lia.
Defined.

End RelativeTimeFacts.

(** ** What [replace] and [cleanSummary] keep *)

Module StripFacts.
Import Regex ArticleCard Subseq CleanSummaryFacts.

Lemma subseq_refl {A} (l : list A) : subseq l l.
Proof. induction l; [apply subseq_nil | apply subseq_keep; assumption]. Qed.

Lemma subseq_nil_l {A} (l : list A) : subseq [] l.
Proof. induction l; constructor; assumption. Qed.

Lemma subseq_length {A} (l m : list A) :
  subseq l m -> (List.length l <= List.length m)%nat.
Proof. induction 1; cbn; lia. Qed.

Lemma subseq_firstn {A} (l m : list A) k : subseq l m -> subseq (firstn k l) m.
Proof.
  intros H. revert k. induction H as [ | x l m _ IH | x l m _ IH]; intros k.
  - rewrite firstn_nil. constructor.
  - constructor. apply IH.
  - destruct k as [ | k]; cbn [firstn].
    + apply subseq_nil_l.
    + apply subseq_keep, IH.
Qed.

Section AnyPattern.
Context {char : Type} (r : regex char).

(** The scan drops characters and keeps the others in place. *)
Lemma remove_matches_subseq k s : subseq (remove_matches r k s) s.
Proof.
  revert k. induction s as [ | c s IH]; intros k; cbn [remove_matches].
  - constructor.
  - destruct k as [ | k]; [ | apply subseq_skip, IH].
    destruct (match_here r (c :: s)) as [[ | n] | ];
      [apply subseq_keep | apply subseq_skip | apply subseq_keep]; apply IH.
Qed.

(** Where the pattern matches nowhere, the scan changes nothing. *)
Lemma remove_matches_no_match s :
  (forall i, match_here r (skipn i s) = None) -> remove_matches r 0 s = s.
Proof.
  induction s as [ | c s IH]; intros Hno; [reflexivity | ].
  cbn [remove_matches]. rewrite (Hno 0%nat : match_here r (c :: s) = None).
  rewrite IH; [reflexivity | ]. intros i. apply (Hno (S i)).
Qed.

End AnyPattern.

Lemma strip_tags_chars s :
  list_ascii_of_string (strip_tags s) =
  replace_all_with_empty tag_pattern (list_ascii_of_string s).
Proof. unfold strip_tags. apply list_ascii_of_string_of_list_ascii. Qed.

Lemma strip_tags_plain s :
  ~ contains_tag (list_ascii_of_string s) -> strip_tags s = s.
Proof.
  intros Hno. unfold strip_tags, replace_all_with_empty.
  rewrite remove_matches_no_match.
  - apply string_of_list_ascii_of_string.
  - intros i. apply no_tag_no_match, Hno.
Qed.

Lemma substring_whole m s : (String.length s <= m)%nat -> String.substring 0 m s = s.
Proof.
  revert m. induction s as [ | c s IH]; intros m Hm.
  - destruct m; reflexivity.
  - destruct m as [ | m]; cbn in Hm; [lia | ].
    cbn. rewrite IH by lia. reflexivity.
Qed.

(** X13: stripping only deletes: the characters of [strip_tags s] are
    characters of [s], in their order (for any pattern, the result of
    [replace(pattern, '')] is a subsequence of the input), so the result is
    never longer than the input; and the displayed summary consists of
    characters of the article's summary, in their order. *)
Theorem stripping_only_deletes (a : Data.Article) (s : string) :
  subseq (list_ascii_of_string (strip_tags s)) (list_ascii_of_string s) /\
  (String.length (strip_tags s) <= String.length s)%nat /\
  (Data.summary a = Some s ->
   subseq (list_ascii_of_string (cleanSummary a)) (list_ascii_of_string s)).
Proof.
  assert (Hsub : subseq (list_ascii_of_string (strip_tags s)) (list_ascii_of_string s)).
  { rewrite strip_tags_chars. apply remove_matches_subseq. }
  split; [exact Hsub | ]. split.
  - rewrite !string_length_as_list. apply subseq_length, Hsub.
  - intros Ha. rewrite cleanSummary_chars, Ha.
    apply subseq_firstn, remove_matches_subseq.
Qed.

(** X14: stripping is idempotent, and it leaves alone a text in which no
    ["<"] is followed by a [">"] (a text without ["<"], for one). *)
Theorem stripping_is_idempotent (s : string) :
  strip_tags (strip_tags s) = strip_tags s /\
  (~ contains_tag (list_ascii_of_string s) -> strip_tags s = s) /\
  (~ In lt_sign (list_ascii_of_string s) -> strip_tags s = s).
Proof.
  split; [ | split].
  - apply strip_tags_plain. rewrite strip_tags_chars. apply strip_has_no_tag.
  - apply strip_tags_plain.
  - intros Hlt. apply strip_tags_plain.
    intros (before & inside & after & E). apply Hlt. rewrite E.
    apply in_or_app. right. left. reflexivity.
Qed.

(** X15: a summary without markup is displayed as it is, cut to its first
    150 characters: unchanged when it has at most 150 characters. *)
Theorem plain_summary_is_displayed (a : Data.Article) (s : string) :
  Data.summary a = Some s ->
  ~ contains_tag (list_ascii_of_string s) ->
  cleanSummary a = String.substring 0 150 s /\
  ((String.length s <= 150)%nat -> cleanSummary a = s).
Proof.
  intros Ha Hno.
  assert (E : cleanSummary a = String.substring 0 150 s).
  { unfold cleanSummary. rewrite Ha. cbn [option_map].
    rewrite or_empty_some, (strip_tags_plain s Hno). reflexivity. }
  split; [exact E | ]. intros Hlen. rewrite E. apply substring_whole, Hlen.
Qed.

Lemma plain_summary_is_displayed_witness :
  let s := "Open 7 days a week; cost < 1 euro."%string in
  let a := {| Data.id := "a3"; Data.headline := "Library reopens";
              Data.summary := Some s; Data.image_url := None;
              Data.source_url := "https://example.org/library";
              Data.source_name := "Example"; Data.category := None;
              Data.hopefulness_score := Some 71;
              Data.published_at := "2024-05-03" |} in
  cleanSummary a = s.
Proof.
  intros s a.
  assert (Hno : ~ contains_tag (list_ascii_of_string s)).
  { intros Htag. apply contains_tag_has_gt in Htag.
    cbn in Htag. unfold gt_sign in Htag.
    repeat (destruct Htag as [Htag | Htag]; [discriminate Htag | ]). exact Htag. }
  apply (proj2 (plain_summary_is_displayed a s eq_refl Hno)).
  cbn. lia.
Defined.

End StripFacts.

(** ** Auxiliary data, continued *)

Module AuxiliaryMoreFacts.
Import Async Auxiliary AppView.

(** X16: [fetchFilters] is all or nothing.  It always issues both requests
    and never throws; when both are fulfilled the two lists are replaced by
    the replies; when either is rejected both lists stay as they were, so a
    categories reply is discarded when the regions request fails (and the
    other way round).  The counter and the feed are not touched. *)
Theorem fetchFilters_all_or_nothing (b : Backend) (p0 : Page) :
  match fetchFilters b p0 with
  | (r, p, out) =>
      r = Return tt /\
      out = [GetCategories; GetRegions] /\
      todayCount p = todayCount p0 /\
      feed_length p = feed_length p0 /\
      (forall cats regs,
         categories_reply b = Fulfilled cats -> regions_reply b = Fulfilled regs ->
         categories p = cats /\ regions p = regs) /\
      (is_rejected (categories_reply b) = true \/
       is_rejected (regions_reply b) = true -> p = p0)
  end.
Proof.
  destruct b as [cats regs stats], p0 as [c0 r0 t0 n0].
  unfold fetchFilters, try_catch, bind, emit, await, modify.
  destruct cats as [cs | e1], regs as [rs | e2]; cbn;
    repeat split; try reflexivity; try congruence;
    intros [H | H]; discriminate H.
Qed.

Lemma fetchFilters_all_or_nothing_witness :
  let b := {| categories_reply := Fulfilled [ {| Data.name := "health"; Data.count := 7%Z |} ];
              regions_reply := Rejected {| err_name := "NetworkError" |};
              stats_reply := Fulfilled None |} in
  snd (fst (fetchFilters b fresh)) = fresh.
Proof.
  intros b.
  pose proof (fetchFilters_all_or_nothing b fresh) as H.
  destruct (fetchFilters b fresh) as [[r p] out].
  destruct H as (_ & _ & _ & _ & _ & H). apply H. right. reflexivity.
Defined.

(** X17: on a page that shows no counter yet, the header shows "n new today"
    after [fetchStats] exactly when [getStats] was fulfilled with a reply
    that carries [articles.fetched_today = n] (a count of 0 is shown as
    well); a rejected request, a [null] reply, or a reply without the figure
    leaves the counter hidden. *)
Theorem today_counter_shows_reported_figure (b : Backend) (p0 : Page) (n : Z) :
  todayCount p0 = None ->
  let p := snd (fst (fetchStats b p0)) in
  (todayCount p = Some n <->
   exists s a, stats_reply b = Fulfilled (Some s) /\
               Data.stats_articles s = Some a /\ Data.fetched_today a = Some n) /\
  (shows_today_counter p = true <-> exists m, todayCount p = Some m).
Proof.
  intros H0 p. subst p. destruct b as [cats regs stats], p0 as [c0 r0 t0 n0].
  cbn in H0. subst t0.
  unfold fetchStats, try_catch, bind, emit, await, modify, throw, shows_today_counter.
  destruct stats as [[[[[[m | ]] | ]] | ] | e]; cbn.
  - split; split.
    + intros [= <-]. eexists _, _. repeat split.
    + intros (s & a & [= <-] & [= <-] & [= <-]). reflexivity.
    + intros _. eexists. reflexivity.
    + reflexivity.
  - split; split; try discriminate.
    + intros (s & a & [= <-] & [= <-] & H). discriminate H.
    + intros [m H]. discriminate H.
  - split; split; try discriminate.
    + intros (s & a & [= <-] & H & _). discriminate H.
    + intros [m H]. discriminate H.
  - split; split; try discriminate.
    + intros (s & a & H & _). discriminate H.
    + intros [m H]. discriminate H.
  - split; split; try discriminate.
    + intros (s & a & H & _). discriminate H.
    + intros [m H]. discriminate H.
Qed.

Lemma today_counter_shows_reported_figure_witness :
  let b := {| categories_reply := Fulfilled []; regions_reply := Fulfilled [];
              stats_reply :=
                Fulfilled (Some {| Data.stats_articles :=
                                     Some {| Data.fetched_today := Some 0%Z |} |}) |} in
  todayCount (snd (fst (fetchStats b fresh))) = Some 0%Z.
Proof.
  intros b.
  apply (proj1 (today_counter_shows_reported_figure b fresh 0 eq_refl)).
  eexists _, _. repeat split.
Defined.

(** X18: the filter bar stands or falls with the category and region
    lists.  After mounting a fresh page no control of the bar can be clicked,
    the level buttons included, when [getCategories] or [getRegions] was
    rejected or when both lists came back empty; otherwise the level "All"
    button is there. *)
Theorem filter_bar_needs_both_lists
  (b : Backend) (ac ar : option string) (am : option Q) :
  let p := snd (fst (mount b fresh)) in
  let props := filter_props p ac ar am in
  (is_rejected (categories_reply b) = true \/
   is_rejected (regions_reply b) = true \/
   (categories_reply b = Fulfilled [] /\ regions_reply b = Fulfilled []) ->
   forall c, FilterBar.click props c = None) /\
  (forall cats regs,
     categories_reply b = Fulfilled cats -> regions_reply b = Fulfilled regs ->
     cats <> [] \/ regs <> [] ->
     FilterBar.click props FilterBar.LevelAll
       = Some (FilterBar.selectMinScore FilterBar.VNull)).
Proof.
  intros p props. subst props p.
  destruct b as [cats regs stats].
  unfold mount, AppHeader_onMounted, ArticleFeed_onMounted, App_onMounted,
    spawn, fetchStats, fetchFilters, bind, try_catch, emit, get, modify,
    filter_props, FilterBar.click, FilterBar.hasFilters.
  destruct stats as [[st | ] | e1], cats as [cs | e2], regs as [rs | e3]; cbn;
    (split;
     [ intros [H | [H | [H1 H2]]]; try discriminate H; try discriminate H1;
       try discriminate H2; try reflexivity;
       injection H1 as ->; injection H2 as ->; reflexivity
     | intros cats' regs' H1 H2 Hne; try discriminate H1; try discriminate H2;
       injection H1 as ->; injection H2 as ->;
       destruct cats' as [ | x xs], regs' as [ | y ys]; cbn; try reflexivity;
       destruct Hne as [Hne | Hne]; contradiction ]).
Qed.

Lemma filter_bar_needs_both_lists_witness :
  let b := {| categories_reply := Fulfilled [ {| Data.name := "health"; Data.count := 7%Z |} ];
              regions_reply := Rejected {| err_name := "NetworkError" |};
              stats_reply := Fulfilled None |} in
  FilterBar.click (filter_props (snd (fst (mount b fresh))) None None None)
                  (FilterBar.LevelChoice 0) = None.
Proof.
  intros b.
  apply (proj1 (filter_bar_needs_both_lists b None None None)).
  right. left. reflexivity.
Defined.

End AuxiliaryMoreFacts.

(** ** The highlighted control of the filter bar *)

Module FilterHighlightFacts.
Import FilterBar FilterHighlight.

Lemma distinct_names l i j x y :
  NoDup (map Data.name l) ->
  nth_error l i = Some x -> nth_error l j = Some y ->
  Data.name x = Data.name y -> i = j.
Proof.
  intros Hnd Hi Hj Hxy.
  apply (proj1 (NoDup_nth_error (map Data.name l)) Hnd).
  - rewrite length_map. apply nth_error_Some. rewrite Hi. discriminate.
  - rewrite !nth_error_map, Hi, Hj. cbn. rewrite Hxy. reflexivity.
Qed.

Lemma listed_name_not_empty l i x :
  ~ In EmptyString (map Data.name l) -> nth_error l i = Some x ->
  String.eqb (Data.name x) EmptyString = false.
Proof.
  intros Hne Hi. apply String.eqb_neq. intros E. apply Hne. rewrite <- E.
  apply in_map. apply (nth_error_In _ _ Hi).
Qed.

(** One row of named choices (categories or regions): with [a] the active
    value and the click on entry [i] reflected in it, entry [j] is active only
    for [j = i]. *)
Lemma named_row_exclusive l i j x a :
  NoDup (map Data.name l) ->
  nth_error l i = Some x -> String.eqb a (Data.name x) = true -> j <> i ->
  match nth_error l j with
  | Some y => String.eqb a (Data.name y)
  | None => false
  end = false.
Proof.
  intros Hnd Hi Ha Hji. destruct (nth_error l j) as [y | ] eqn:Hj; [ | reflexivity].
  apply String.eqb_eq in Ha. apply String.eqb_neq. intros E.
  apply Hji. apply (distinct_names l j i y x Hnd Hj Hi). congruence.
Qed.

Lemma level_row_exclusive i j lv a :
  nth_error ratingLevels i = Some lv -> Js.strict_eq a (min lv) = true ->
  (j <> i ->
   match nth_error ratingLevels j with
   | Some lv' => Js.strict_eq a (min lv')
   | None => false
   end = false) /\
  Js.strict_eq a 0 = false.
Proof.
  intros Hi Ha. apply JsFacts.strict_eq_true in Ha.
  assert (Hcases : min lv == 90 \/ min lv == 80 \/ min lv == 70 \/ min lv == 60).
  { destruct i as [ | [ | [ | [ | i]]]]; cbn in Hi;
      try (injection Hi as <-; cbn; auto 6 using Qeq_refl).
    destruct i; discriminate Hi. }
  split.
  - intros Hji.
    destruct j as [ | [ | [ | [ | j]]]]; cbn;
      try (destruct j; reflexivity);
      apply JsFacts.strict_eq_false;
      destruct i as [ | [ | [ | [ | i]]]]; cbn in Hi;
      try (destruct i; discriminate Hi); try contradiction;
      injection Hi as <-; cbn in Ha; intros E; rewrite Ha in E;
      vm_compute in E; discriminate E.
  - apply JsFacts.strict_eq_false. intros E. rewrite Ha in E.
    destruct Hcases as [H | [H | [H | H]]]; rewrite H in E;
      vm_compute in E; discriminate E.
Qed.

(** X19: each row of the filter bar behaves as a radio group.  With
    distinct, non-empty names in the category and region lists: once the
    props reflect the click on a control (the active value of its dimension
    is the value the control emitted), that control is the highlighted one
    and no other control of its row is highlighted. *)
Theorem clicked_control_is_the_highlighted_one
  (p : Props) (c : control) (ev : FilterChange) :
  proper_names (categories p) ->
  proper_names (regions p) ->
  click p c = Some ev ->
  strict_equal (active_value p (type ev)) (payload ev) = true ->
  highlighted p c = true /\
  (forall c', row c' = row c -> c' <> c -> highlighted p c' = false).
Proof.
  intros [Hcd Hcn] [Hrd Hrn]. unfold click.
  destruct (negb (hasFilters p)); [discriminate | ].
  destruct c as [ | i | | i | | i]; try FilterBarFacts.rendered_guard.
  - (* the category "All" button *)
    intros [= <-]. cbn. destruct (activeCategory p) eqn:Ea; [discriminate | ].
    intros _. split; [reflexivity | ].
    intros [ | j | | j | | j]; cbn; try discriminate; try congruence.
    rewrite Ea. reflexivity.
  - (* a category *)
    destruct (nth_error (categories p) i) as [x | ] eqn:Hi; [ | discriminate].
    intros [= <-]. cbn. destruct (activeCategory p) as [a | ] eqn:Ea; [ | discriminate].
    rewrite Hi. intros Ha. split; [exact Ha | ].
    intros [ | j | | j | | j]; cbn; try discriminate; rewrite ?Ea.
    + intros _ _. apply String.eqb_eq in Ha. rewrite Ha.
      apply (listed_name_not_empty _ i x Hcn Hi).
    + intros _ Hne. apply (named_row_exclusive _ i j x a Hcd Hi Ha). congruence.
  - (* the level "All" button *)
    intros [= <-]. cbn. destruct (activeMinScore p) eqn:Ea; [discriminate | ].
    intros _. split; [reflexivity | ].
    intros [ | j | | j | | j]; cbn; try discriminate; try congruence.
    rewrite Ea. reflexivity.
  - (* a level *)
    destruct (nth_error ratingLevels i) as [lv | ] eqn:Hi; [ | discriminate].
    intros [= <-]. cbn -[ratingLevels].
    destruct (activeMinScore p) as [a | ] eqn:Ea; [ | discriminate].
    rewrite Hi. intros Ha. split; [exact Ha | ].
    destruct (level_row_exclusive i 0%nat lv a Hi Ha) as [_ Hzero].
    intros [ | j | | j | | j]; cbn -[ratingLevels]; try discriminate; rewrite ?Ea.
    + intros _ _. exact Hzero.
    + intros _ Hne.
      apply (proj1 (level_row_exclusive i j lv a Hi Ha)). congruence.
  - (* the region "All" button *)
    intros [= <-]. cbn. destruct (activeRegion p) eqn:Ea; [discriminate | ].
    intros _. split; [reflexivity | ].
    intros [ | j | | j | | j]; cbn; try discriminate; try congruence.
    rewrite Ea. reflexivity.
  - (* a region *)
    destruct (nth_error (regions p) i) as [x | ] eqn:Hi; [ | discriminate].
    intros [= <-]. cbn. destruct (activeRegion p) as [a | ] eqn:Ea; [ | discriminate].
    rewrite Hi. intros Ha. split; [exact Ha | ].
    intros [ | j | | j | | j]; cbn; try discriminate; rewrite ?Ea.
    + intros _ _. apply String.eqb_eq in Ha. rewrite Ha.
      apply (listed_name_not_empty _ i x Hrn Hi).
    + intros _ Hne. apply (named_row_exclusive _ i j x a Hrd Hi Ha). congruence.
Qed.

Lemma clicked_control_is_the_highlighted_one_witness :
  let p := {| categories := [ {| Data.name := "health"; Data.count := 4%Z |};
                              {| Data.name := "social"; Data.count := 2%Z |} ];
              regions := [];
              activeCategory := Some "social"%string;
              activeRegion := None;
              activeMinScore := None |} in
  highlighted p (CategoryChoice 1) = true /\
  highlighted p CategoryAll = false /\
  highlighted p (CategoryChoice 0) = false.
Proof.
  intros p.
  assert (Hc : proper_names (categories p)).
  { split.
    - repeat constructor; cbn; intros H;
        repeat (destruct H as [H | H]; [discriminate H | ]); exact H.
    - cbn. intros H.
      repeat (destruct H as [H | H]; [discriminate H | ]); exact H. }
  assert (Hr : proper_names (regions p)).
  { split; [constructor | intros []]. }
  destruct (clicked_control_is_the_highlighted_one p (CategoryChoice 1)
              {| type := category; payload := VString "social" |}
              Hc Hr eq_refl eq_refl) as [Hon Hoff].
  split; [exact Hon | ]. split; apply Hoff; try reflexivity; discriminate.
Defined.

End FilterHighlightFacts.

(** ** The share sheet, the tag pattern and the states of the gesture *)

Module MoreFacts.
Import Async Regex ArticleCard CleanSummaryFacts.

(** X20: the calls of [handleShare], all of them.  It calls
    [navigator.share] exactly once when the Web Share API is there and never
    when it is not, before anything else, with the headline as title, the
    source URL as url and the cleaned summary as text (free of tags, at most
    150 characters).  The only other call it can make is one clipboard write
    of the source URL, made exactly when it falls back to the copy (no API,
    or a failure other than [AbortError]) and [navigator.clipboard] exists.
    When it does not fall back (the share succeeded or was cancelled) the
    toast is left as it was. *)
Theorem share_sheet_payload (nav : Navigator) (a : Data.Article) (t0 : Toast) :
  let payload := {| title := Data.headline a; text := cleanSummary a;
                    url := Data.source_url a |} in
  match handleShare nav a t0 with
  | (_, t1, out) =>
      out = (match share nav with
             | Some _ => [NavigatorShare payload]
             | None => []
             end ++
             if falls_back nav then copy_calls nav a else [])%list /\
      (falls_back nav = false -> t1 = t0) /\
      ~ contains_tag (list_ascii_of_string (text payload)) /\
      (String.length (text payload) <= 150)%nat
  end.
Proof.
  intros payload.
  assert (Hclean : ~ contains_tag (list_ascii_of_string (text payload)) /\
                   (String.length (text payload) <= 150)%nat).
  { cbn [text payload]. split.
    - rewrite cleanSummary_chars. destruct (Data.summary a) as [s | ].
      + intros H. apply contains_tag_firstn in H. revert H. apply strip_has_no_tag.
      + apply contains_tag_nil.
    - rewrite string_length_as_list, cleanSummary_chars.
      destruct (Data.summary a); [apply firstn_le_length | cbn; lia]. }
  unfold handleShare, falls_back. fold payload.
  destruct (share nav) as [[[] | err] | ].
  - cbn. split; [reflexivity | ]. split; [reflexivity | exact Hclean].
  - unfold try_catch, bind, emit, await, throw. cbn.
    destruct (String.eqb (err_name err) "AbortError"); cbn.
    + split; [reflexivity | ]. split; [reflexivity | exact Hclean].
    + rewrite ShareFacts.copyToClipboard_run. cbn.
      split; [reflexivity | ]. split; [discriminate | exact Hclean].
  - rewrite ShareFacts.copyToClipboard_run. cbn.
    split; [reflexivity | ]. split; [discriminate | exact Hclean].
Qed.

Lemma share_sheet_payload_witness :
  let a := {| Data.id := "a4"; Data.headline := "Park opens";
              Data.summary := Some "<p>A new park.</p>"%string;
              Data.image_url := None;
              Data.source_url := "https://example.org/park";
              Data.source_name := "Example"; Data.category := None;
              Data.hopefulness_score := None; Data.published_at := "2024-05-04" |} in
  let nav := {| share := Some (Rejected {| err_name := "AbortError" |});
                clipboard := None |} in
  let quiet := {| showToast := false; toastMessage := EmptyString |} in
  snd (fst (handleShare nav a quiet)) = quiet.
Proof.
  intros a nav quiet.
  pose proof (share_sheet_payload nav a quiet) as H.
  destruct (handleShare nav a quiet) as [[r t1] out].
  destruct H as (_ & H & _). apply H. reflexivity.
Defined.

Lemma match_tail_found inside after :
  ~ In gt_sign inside ->
  match_here tail_pattern (inside ++ gt_sign :: after)
  = Some (S (List.length inside)).
Proof.
  induction inside as [ | c inside IH]; intros Hno.
  - cbn [app]. rewrite match_tail_cons. rewrite Ascii.eqb_refl. reflexivity.
  - cbn [app List.length]. rewrite match_tail_cons.
    destruct (Ascii.eqb_spec c gt_sign) as [-> | _].
    + exfalso. apply Hno. left. reflexivity.
    + cbn [negb]. rewrite IH; [reflexivity | ].
      intros H. apply Hno. right. exact H.
Qed.

(** X21: the pattern [<[^>]*>] matches at a position exactly when the text
    there starts with ["<"] and a [">"] follows, and the match then ends at
    the first [">"]: the matched tag is the ["<"], the characters up to that
    [">"] (none of them a [">"]), and the [">"]. *)
Theorem tag_match_ends_at_first_gt (s : list ascii) (n : nat) :
  match_here tag_pattern s = Some n <->
  exists inside after,
    s = (lt_sign :: inside ++ gt_sign :: after)%list /\
    ~ In gt_sign inside /\ n = S (S (List.length inside)).
Proof.
  split; [apply match_tag_some | ].
  intros (inside & after & -> & Hno & ->).
  rewrite match_tag_cons, Ascii.eqb_refl, (match_tail_found inside after Hno).
  reflexivity.
Qed.

End MoreFacts.

Module GestureStatesFacts.
Import PullToRefresh PullIndicator PullToRefreshFacts.

(** X22: the gesture is always in exactly one of three states: idle (not
    pulling, not refreshing, pull distance 0, nothing in flight, indicator
    hidden), pulling (pulling, not refreshing, nothing in flight, indicator
    shown), or refreshing (refreshing, not pulling, pull distance pinned to
    60, one fetch in flight, indicator shown).  [isPulling] and
    [isRefreshing] are never set together. *)
Theorem gesture_is_idle_pulling_or_refreshing (s : System) :
  reachable s ->
  let g := gesture s in
  (isPulling g = false /\ isRefreshing g = false /\ pullDistance g = 0 /\
   parked s = 0%nat /\ showPullIndicator g = false) \/
  (isPulling g = true /\ isRefreshing g = false /\
   parked s = 0%nat /\ showPullIndicator g = true) \/
  (isPulling g = false /\ isRefreshing g = true /\ pullDistance g = 60 /\
   parked s = 1%nat /\ showPullIndicator g = true).
Proof.
  intros Hs g. subst g. destruct (reachable_inv s Hs) as [_ Href Hq].
  unfold showPullIndicator.
  destruct (isRefreshing (gesture s)).
  - destruct (Href eq_refl) as (Hp & Hpd & Hn). rewrite Hp.
    right. right. repeat split; assumption.
  - destruct (Hq eq_refl) as [Hn Hpd]. destruct (isPulling (gesture s)).
    + right. left. repeat split; assumption.
    + left. repeat split; try assumption. apply Hpd. reflexivity.
Qed.

Lemma gesture_is_idle_pulling_or_refreshing_witness :
  let s := fst (run [TouchStart 0 100; TouchMove 0 300; TouchEnd] boot) in
  isPulling (gesture s) = false /\ isRefreshing (gesture s) = true /\
  pullDistance (gesture s) = 60.
Proof.
  intros s.
  assert (Hs : reachable s) by apply reachable_run, reach_boot.
  destruct (gesture_is_idle_pulling_or_refreshing s Hs)
    as [(_ & H & _) | [(H & _) | (H1 & H2 & H3 & _)]];
    [discriminate H | discriminate H | ].
  split; [exact H1 | split; [exact H2 | exact H3]].
Defined.

End GestureStatesFacts.
